(** * Fear and Greed Index scraper: data reconciliation and command boundary

    A shallow embedding of [src/fng/fngindex.py] (class [FearAndGreedIndex])
    and of the [scrape] command of [src/fng/cli.py].

    Conventions of the embedding:
    - a [datetime.date] is its proleptic Gregorian ordinal ([date.toordinal()]),
      so that [(end - start).days] is the difference of two ordinals;
    - a polars [DataFrame] is a list of column names with a list of rows; every
      cell is nullable ([None] is polars' null); a [pl.Date] cell holds an
      ordinal, a [pl.Int64] cell holds the integer (scores are taken to fit
      64 bits);
    - a Python [float] is the rational number it denotes ([int] and [round]
      are exact functions of that number); [nan] and the infinities are one
      extra constructor;
    - exceptions are values of [exn]; console output, the HTTP request and file
      accesses are recorded in a trace of [event]s; the progress spinners and
      the random user agent of the request leave no trace. *)

From Stdlib Require Import ZArith QArith Qround List String Ascii Bool Lia.
From Stdlib Require Import DecimalString.
From Stdlib Require Import Sorting.Sorted Sorting.Permutation.
Import ListNotations.
Open Scope Z_scope.

(** ** Exceptions, events and the effect monad *)

Inductive exn : Type :=
| AttributeError (msg : string)
| ColumnNotFoundError (col : string)
| KeyError (key : string)
| ValueError (msg : string)
| OverflowError (msg : string)
| RequestException (msg : string)
| OSError (msg : string)
| Exit (code : Z).

Inductive result (A : Type) : Type :=
| Ok (a : A)
| Err (e : exn).
Arguments Ok {A} a.
Arguments Err {A} e.

Definition cell : Type := option Z.

Record DataFrame : Type := mkDataFrame {
  columns : list string;
  rows : list (list cell)
}.

Inductive event : Type :=
| Print (text : string)
| HttpGet (url : string)
| ReadCsv (path : string)
| WriteParquet (path : string) (data : DataFrame)
| WriteCsv (path : string) (data : DataFrame)
| PrintSummary (data : DataFrame).

(** A computation emits a trace and either returns or raises. A [Print]
    event is a call of [console.print] that returned. rich reads markup
    tags only at a ['['], so a text whose spliced parts hold no ['['] is
    printed as it is; the statements below that depend on such a text being
    printed say so with [no_bracket]. *)
Definition M (A : Type) : Type := (list event * result A)%type.

Definition ret {A} (a : A) : M A := ([], Ok a).
Definition raise {A} (e : exn) : M A := ([], Err e).
Definition emit (ev : event) : M unit := ([ev], Ok tt).
Definition lift {A} (r : result A) : M A := ([], r).

Definition bind {A B} (m : M A) (k : A -> M B) : M B :=
  match m with
  | (t, Ok a) => let (t', r) := k a in (t ++ t', r)
  | (t, Err e) => (t, Err e)
  end.

(** [try m except Exception as e: h e] *)
Definition catch {A} (m : M A) (h : exn -> M A) : M A :=
  match m with
  | (t, Ok a) => (t, Ok a)
  | (t, Err e) => let (t', r) := h e in (t ++ t', r)
  end.

Notation "x <- m ;; k" := (bind m (fun x => k))
  (at level 61, m at next level, right associativity).
Notation "m ;;; k" := (bind m (fun _ => k))
  (at level 61, right associativity).

(** ** Calendar dates ([datetime.date] as an ordinal) *)

Definition _is_leap (year : Z) : bool :=
  (year mod 4 =? 0) && (negb (year mod 100 =? 0) || (year mod 400 =? 0)).

Definition _days_before_year (year : Z) : Z :=
  let y := year - 1 in y * 365 + y / 4 - y / 100 + y / 400.

Definition _days_in_month (year month : Z) : Z :=
  if (month =? 2) && _is_leap year then 29
  else nth (Z.to_nat month) [-1; 31; 28; 31; 30; 31; 30; 31; 31; 30; 31; 30; 31] (-1).

Definition _days_before_month (year month : Z) : Z :=
  nth (Z.to_nat month) [-1; 0; 31; 59; 90; 120; 151; 181; 212; 243; 273; 304; 334] (-1)
  + (if (2 <? month) && _is_leap year then 1 else 0).

Definition _ymd2ord (year month day : Z) : Z :=
  _days_before_year year + _days_before_month year month + day.

Definition MINYEAR : Z := 1.
Definition MAXYEAR : Z := 9999.

(** [date(year, month, day)]: raises [ValueError] outside the calendar. *)
Definition date (year month day : Z) : option Z :=
  if (MINYEAR <=? year) && (year <=? MAXYEAR)
     && (1 <=? month) && (month <=? 12)
     && (1 <=? day) && (day <=? _days_in_month year month)
  then Some (_ymd2ord year month day) else None.

Definition date_min : Z := _ymd2ord 1 1 1.
Definition date_max : Z := _ymd2ord 9999 12 31.
Definition epoch : Z := _ymd2ord 1970 1 1.

(** *** [datetime.strptime(s, "%Y-%m-%d")]

    The format compiles to the regular expression
    [(?P<Y>\d\d\d\d)-(?P<m>1[0-2]|0[1-9]|[1-9])-(?P<d>3[0-1]|[1-2]\d|0[1-9]|[1-9]| [1-9])]
    which must consume the whole string; the fields must then form a date.
    Strings are ASCII here. *)

Definition is_digit (c : ascii) : bool :=
  let n := Z.of_nat (nat_of_ascii c) in (48 <=? n) && (n <=? 57).

Definition digit_val (c : ascii) : Z := Z.of_nat (nat_of_ascii c) - 48.

Definition parse_year (s : string) : option (Z * string) :=
  match s with
  | String a (String b (String c (String d rest))) =>
      if is_digit a && is_digit b && is_digit c && is_digit d
      then Some (((digit_val a * 10 + digit_val b) * 10 + digit_val c) * 10 + digit_val d, rest)
      else None
  | _ => None
  end.

(** The month alternatives [1[0-2]|0[1-9]|[1-9]], each followed by the
    literal [-]. *)
Definition parse_month (s : string) : option (Z * string) :=
  let two :=
    match s with
    | String a (String b (String "-" rest)) =>
        if is_digit a && is_digit b then
          let m := digit_val a * 10 + digit_val b in
          if (1 <=? m) && (m <=? 12) then Some (m, rest) else None
        else None
    | _ => None
    end in
  match two with
  | Some r => Some r
  | None =>
      match s with
      | String a (String "-" rest) =>
          if is_digit a && (1 <=? digit_val a) then Some (digit_val a, rest) else None
      | _ => None
      end
  end.

(** The day alternatives [3[0-1]|[1-2]\d|0[1-9]|[1-9]| [1-9]], followed by
    the end of the string (anything left over is "unconverted data"). *)
Definition parse_day (s : string) : option Z :=
  match s with
  | String a (String b EmptyString) =>
      if is_digit a && is_digit b then
        let d := digit_val a * 10 + digit_val b in
        if (1 <=? d) && (d <=? 31) then Some d else None
      else if Ascii.eqb a " " && is_digit b && (1 <=? digit_val b)
      then Some (digit_val b) else None
  | String a EmptyString =>
      if is_digit a && (1 <=? digit_val a) then Some (digit_val a) else None
  | _ => None
  end.

Definition strptime (s : string) : option Z :=
  match parse_year s with
  | Some (y, String "-" s1) =>
      match parse_month s1 with
      | Some (m, s2) =>
          match parse_day s2 with
          | Some d => date y m d
          | None => None
          end
      | None => None
      end
  | _ => None
  end.

(** *** [datetime.fromtimestamp(t).date()]

    [fromtimestamp] converts a POSIX time to local time; [utcoffset s] is the
    offset of the local zone from UTC, in seconds, at POSIX second [s]
    (within a day of zero on every platform). The argument here is
    [timestamp / 1000] for an integer [timestamp] of milliseconds, so the
    date is the local day of second [floor (timestamp / 1000)]. A local day
    outside [date.min .. date.max] raises [ValueError] with its year; so
    does a local day that is not in that range 24 hours earlier, because
    [fromtimestamp] builds a second datetime for [t - 24 h] to detect a
    repeated hour (a "fold"), and that one lies in year 0. Before either,
    a quotient too large for a double or a second that does not fit
    [time_t] raises [OverflowError], and a year that does not fit the [int]
    of [struct tm] makes [localtime] fail with [OSError]. The quotient is
    a double: beyond [2 ^ 53] its rounding can move the thresholds of
    [time_t] and of the year, and the year named, by about a thousand
    seconds. [local_date] is the local calendar day of a POSIX second. *)

(** [str(n)] of an integer. *)
Definition str_int (n : Z) : string := NilZero.string_of_int (Z.to_int n).

(** The year of an ordinal, as in [_ord2ymd]. *)
Definition _ord2year (n : Z) : Z :=
  let n := n - 1 in
  let n400 := n / 146097 in
  let n := n mod 146097 in
  let n100 := n / 36524 in
  let n := n mod 36524 in
  let n4 := n / 1461 in
  let n := n mod 1461 in
  let n1 := n / 365 in
  let year := n400 * 400 + n100 * 100 + n4 * 4 + n1 + 1 in
  if (n1 =? 4) || (n100 =? 4) then year - 1 else year.

Definition local_date (utcoffset : Z -> Z) (secs : Z) : Z :=
  (secs + utcoffset secs) / 86400 + epoch.

(** What [fromtimestamp] raises for a second whose local day, or the day
    before, is not a date. *)
Definition fromtimestamp_error (utcoffset : Z -> Z) (timestamp : Z) : exn :=
  let secs := timestamp / 1000 in
  let year := _ord2year (local_date utcoffset secs) in
  if (2 ^ 1024 - 2 ^ 970) * 1000 <=? Z.abs timestamp
  then OverflowError "integer division result too large for a float"
  else if negb ((- 2 ^ 63 <=? secs) && (secs <? 2 ^ 63))
  then OverflowError "timestamp out of range for platform time_t"
  else if negb ((- 2 ^ 31 <=? year - 1900) && (year - 1900 <? 2 ^ 31))
  then OSError "[Errno 75] Value too large for defined data type"
  else if (MINYEAR <=? year) && (year <=? MAXYEAR)
  then ValueError "year 0 is out of range"
  else ValueError ("year " ++ str_int year ++ " is out of range").

Definition fromtimestamp_date (utcoffset : Z -> Z) (timestamp : Z) : result Z :=
  let secs := timestamp / 1000 in
  let ord := local_date utcoffset secs in
  if (date_min <=? ord) && (ord <=? date_max)
     && (date_min <=? local_date utcoffset (secs - 86400))
  then Ok ord
  else Err (fromtimestamp_error utcoffset timestamp).

(** ** JSON numbers and [int()] *)

Inductive json_number : Type :=
| JInt (z : Z)
| JFloat (q : Q)
| JNaN
| JInfinity.

(** Truncation toward zero, which is what [int] does to a float. *)
Definition Qtrunc (q : Q) : Z := Z.quot (Qnum q) (Zpos (Qden q)).

Definition py_int (n : json_number) : result Z :=
  match n with
  | JInt z => Ok z
  | JFloat q => Ok (Qtrunc q)
  | JNaN => Err (ValueError "cannot convert float NaN to integer")
  | JInfinity =>
      Err (OverflowError "cannot convert float infinity to integer")
  end.

Definition is_finite (n : json_number) : bool :=
  match n with
  | JInt _ | JFloat _ => true
  | JNaN | JInfinity => false
  end.

Record record : Type := mkRecord { x : json_number; y : json_number }.

(** ** polars frames *)

Fixpoint index_of (c : string) (cols : list string) : option nat :=
  match cols with
  | [] => None
  | c' :: rest =>
      if String.eqb c c' then Some O
      else match index_of c rest with Some i => Some (S i) | None => None end
  end.

Definition height (df : DataFrame) : Z := Z.of_nat (List.length (rows df)).

Definition remove_nth {A} (k : nat) (l : list A) : list A :=
  firstn k l ++ skipn (S k) l.

Fixpoint replace_nth {A} (k : nat) (a : A) (l : list A) : list A :=
  match l, k with
  | [], _ => []
  | _ :: t, O => a :: t
  | h :: t, S k' => h :: replace_nth k' a t
  end.

Definition cell_at (k : nat) (r : list cell) : cell := nth k r None.

Definition get_column (k : nat) (rs : list (list cell)) : list cell :=
  map (cell_at k) rs.

Fixpoint set_column (k : nat) (col : list cell) (rs : list (list cell))
  : list (list cell) :=
  match rs, col with
  | r :: rs', c :: col' => replace_nth k c r :: set_column k col' rs'
  | _, _ => rs
  end.

(** A column of a frame by name; [None] when the frame has no such column. *)
Definition column (name : string) (df : DataFrame) : option (list cell) :=
  match index_of name (columns df) with
  | Some k => Some (get_column k (rows df))
  | None => None
  end.

(** Join keys match when both are non-null and equal (nulls never match). *)
Definition key_match (a b : cell) : bool :=
  match a, b with
  | Some u, Some v => u =? v
  | _, _ => false
  end.

(** A right column whose name also occurs on the left gets the suffix. *)
Definition rename_right (lcols : list string) (c : string) : string :=
  if existsb (String.eqb c) lcols then (c ++ "_right")%string else c.

Definition matches (kl kr : nat) (lr : list cell) (rrows : list (list cell))
  : list (list cell) :=
  filter (fun rr => key_match (cell_at kl lr) (cell_at kr rr)) rrows.

Definition left_join_rows (kl kr width : nat) (lrows rrows : list (list cell))
  : list (list cell) :=
  flat_map (fun lr =>
    match matches kl kr lr rrows with
    | [] => [lr ++ repeat None width]
    | ms => map (fun rr => lr ++ remove_nth kr rr) ms
    end) lrows.

(** [left.join(right, on=on, how="left")]: the rows come in the order of
    the left frame; a left row without a match keeps nulls on the right, a
    left row with several matches is repeated. *)
Definition join_left (left right : DataFrame) (on : string) : result DataFrame :=
  match index_of on (columns left), index_of on (columns right) with
  | Some kl, Some kr =>
      let rcols := remove_nth kr (columns right) in
      Ok {| columns := columns left ++ map (rename_right (columns left)) rcols;
            rows := left_join_rows kl kr (List.length rcols) (rows left) (rows right) |}
  | _, _ => Err (ColumnNotFoundError on)
  end.

(** Rows of the right frame that no left row matches: the key is coalesced
    into the left key column, the other left columns are null. *)
Definition unmatched_right_rows (kl kr lwidth : nat) (lrows rrows : list (list cell))
  : list (list cell) :=
  map (fun rr => replace_nth kl (cell_at kr rr) (repeat None lwidth) ++ remove_nth kr rr)
      (filter (fun rr =>
         negb (existsb (fun lr => key_match (cell_at kl lr) (cell_at kr rr)) lrows))
         rrows).

(** [left.join(right, on=on, how="outer_coalesce")]: only the key columns are
    coalesced; every other column of the right frame is kept, renamed with
    the suffix when the left frame has a column of that name. *)
Definition join_outer_coalesce (left right : DataFrame) (on : string)
  : result DataFrame :=
  match index_of on (columns left), index_of on (columns right) with
  | Some kl, Some kr =>
      let rcols := remove_nth kr (columns right) in
      Ok {| columns := columns left ++ map (rename_right (columns left)) rcols;
            rows := left_join_rows kl kr (List.length rcols) (rows left) (rows right)
                    ++ unmatched_right_rows kl kr (List.length (columns left))
                         (rows left) (rows right) |}
  | _, _ => Err (ColumnNotFoundError on)
  end.

(** [pl.col(name).fill_null(0)] and [fill_null(strategy="backward")] *)
Definition fill_null (v : Z) (col : list cell) : list cell :=
  map (fun c => match c with Some u => Some u | None => Some v end) col.

Fixpoint fill_null_backward (col : list cell) : list cell :=
  match col with
  | [] => []
  | c :: rest =>
      let rest' := fill_null_backward rest in
      match c with
      | Some u => Some u :: rest'
      | None => hd None rest' :: rest'
      end
  end.

(** [df.with_columns(pl.col(name).<f>)] *)
Definition with_columns (df : DataFrame) (name : string)
  (f : list cell -> list cell) : result DataFrame :=
  match index_of name (columns df) with
  | Some k =>
      Ok {| columns := columns df;
            rows := set_column k (f (get_column k (rows df))) (rows df) |}
  | None => Err (ColumnNotFoundError name)
  end.

(** [df.sort(name)]: ascending, nulls first. polars leaves the relative
    order of rows with equal keys unspecified; insertion keeps it. *)
Definition cell_leb (a b : cell) : bool :=
  match a, b with
  | None, _ => true
  | Some _, None => false
  | Some u, Some v => u <=? v
  end.

Fixpoint insert_row (k : nat) (r : list cell) (rs : list (list cell))
  : list (list cell) :=
  match rs with
  | [] => [r]
  | r' :: rs' =>
      if cell_leb (cell_at k r) (cell_at k r') then r :: rs
      else r' :: insert_row k r rs'
  end.

Definition sort_rows (k : nat) (rs : list (list cell)) : list (list cell) :=
  fold_right (insert_row k) [] rs.

Definition sort (df : DataFrame) (name : string) : result DataFrame :=
  match index_of name (columns df) with
  | Some k => Ok {| columns := columns df; rows := sort_rows k (rows df) |}
  | None => Err (ColumnNotFoundError name)
  end.

(** [pl.date_range(start, end, interval="1d")]: every day from [start] to
    [end] inclusive; empty when [end] is before [start]. *)
Definition date_range (start_ stop : Z) : list Z :=
  map (fun i => start_ + Z.of_nat i) (seq 0 (Z.to_nat (stop - start_ + 1))).

Definition date_range_frame (start_ stop : Z) : DataFrame :=
  {| columns := ["Date"%string];
     rows := map (fun d => [Some d]) (date_range start_ stop) |}.

(** ** The world outside the program *)

(** A [pathlib.Path], split at the suffix of its final component:
    [str p = stem p ++ suffix p]. *)
Record Path : Type := mkPath { stem : string; suffix : string }.

Definition path_str (p : Path) : string := (stem p ++ suffix p)%string.

(** A path has a name unless it is the current directory or the root. *)
Definition has_name (p : Path) : bool :=
  negb (existsb (String.eqb (path_str p)) [""; "."; "/"; "//"]%string).

(** [p.with_suffix(sfx)], for a suffix such as [".csv"]: [ValueError] when
    the path has an empty name. *)
Definition with_suffix (p : Path) (sfx : string) : result Path :=
  if has_name p then Ok {| stem := stem p; suffix := sfx |}
  else Err (ValueError ("PosixPath('" ++ path_str p
                        ++ "') has an empty name")%string).

(** The JSON body of the response, reduced to what [process_data] reads:
    [None] when the key [fear_and_greed_historical] is absent, [Some None]
    when the key [data] is absent under it, else the list found there. *)
Definition json : Type := option (option (list record)).

Record World : Type := mkWorld {
  utcoffset : Z -> Z;
  (** [requests.get(url)] followed by [raise_for_status()] and [.json()] *)
  http_get : string -> result json;
  path_exists : Path -> bool;
  (** the rows ([Date], [Fear Greed]) that [pl.read_csv] finds in the file *)
  read_csv : Path -> result (list (cell * cell));
  write_file : Path -> result unit
}.

(** ** [class FearAndGreedIndex] *)

Definition BASE_URL : string :=
  "https://production.dataviz.cnn.io/index/fearandgreed/graphdata/".

Definition fetch_historical_data (w : World) (start_date : string) : M json :=
  let url := (BASE_URL ++ start_date)%string in
  emit (HttpGet url) ;;;
  lift (http_get w url).

Definition existing_frame (rs : list (cell * cell)) : DataFrame :=
  {| columns := ["Date"; "Fear Greed"]%string;
     rows := map (fun r => [fst r; snd r]) rs |}.

Definition load_existing_data (w : World) (csv_file : Path)
  : M (option DataFrame) :=
  if negb (path_exists w csv_file) then
    emit (Print ("[yellow]Warning: " ++ path_str csv_file
                 ++ " not found[/yellow]")%string) ;;;
    ret None
  else
    emit (ReadCsv (path_str csv_file)) ;;;
    rs <- lift (read_csv w csv_file) ;;
    ret (Some (existing_frame rs)).

(** Lines 81-86: one [{"Date": date, "Fear Greed": value}] per payload entry. *)
Definition convert_record (tz : Z -> Z) (r : record) : result (Z * Z) :=
  match py_int (x r) with
  | Err e => Err e
  | Ok timestamp =>
      match fromtimestamp_date tz timestamp with
      | Err e => Err e
      | Ok d =>
          match py_int (y r) with
          | Err e => Err e
          | Ok value => Ok (d, value)
          end
      end
  end.

Fixpoint convert_records (tz : Z -> Z) (historical_data : list record)
  : result (list (Z * Z)) :=
  match historical_data with
  | [] => Ok []
  | r :: rest =>
      match convert_record tz r with
      | Err e => Err e
      | Ok o =>
          match convert_records tz rest with
          | Err e => Err e
          | Ok os => Ok (o :: os)
          end
      end
  end.

(** [pl.DataFrame(api_records)]: the columns are the keys of the first
    dictionary, so an empty list gives a frame without columns. The
    values are taken to fit a [pl.Int64] cell ([in_int64] below). *)
Definition api_frame (api_records : list (Z * Z)) : DataFrame :=
  match api_records with
  | [] => {| columns := []; rows := [] |}
  | _ => {| columns := ["Date"; "Fear Greed"]%string;
            rows := map (fun r => [Some (fst r); Some (snd r)]) api_records |}
  end.

Definition empty_frame : DataFrame :=
  {| columns := ["Date"; "Fear Greed"]%string; rows := [] |}.

(** The day alternatives as the regular expression takes them at the head
    of a string, with what is left of the string. *)
Definition match_day (s : string) : option (Z * string) :=
  match s with
  | EmptyString => None
  | String a EmptyString =>
      if is_digit a && (1 <=? digit_val a)
      then Some (digit_val a, EmptyString) else None
  | String a (String b rest) =>
      if is_digit a && is_digit b
         && (1 <=? digit_val a * 10 + digit_val b)
         && (digit_val a * 10 + digit_val b <=? 31)
      then Some (digit_val a * 10 + digit_val b, rest)
      else if is_digit a && (1 <=? digit_val a)
      then Some (digit_val a, String b rest)
      else if Ascii.eqb a " " && is_digit b && (1 <=? digit_val b)
      then Some (digit_val b, rest)
      else None
  end.

(** The text of the [ValueError] of a rejected date: the expression does
    not match, or it matches and leaves text over, or the fields are not a
    date. The string is quoted as [repr] quotes plain text. *)
Definition strptime_message (s : string) : string :=
  let no_match :=
    ("time data '" ++ s ++ "' does not match format '%Y-%m-%d'")%string in
  match parse_year s with
  | Some (y, String "-" s1) =>
      match parse_month s1 with
      | Some (m, s2) =>
          match match_day s2 with
          | Some (d, EmptyString) =>
              if y =? 0 then "year 0 is out of range"%string
              else "day is out of range for month"%string
          | Some (d, rest) => ("unconverted data remains: " ++ rest)%string
          | None => no_match
          end
      | None => no_match
      end
  | _ => no_match
  end.

Definition parse_date (s : string) : result Z :=
  match strptime s with
  | Some d => Ok d
  | None => Err (ValueError (strptime_message s))
  end.

(** Lines 88-118 of [process_data]: everything after the payload has been
    converted. [fng_data] is [None] when the loader returned [None]. *)
Definition merge_and_fill (fng_data : option DataFrame)
  (api_records : list (Z * Z)) (start_date end_date : string)
  (backfill : bool) : result DataFrame :=
  let api_df := api_frame api_records in
  match fng_data with
  | None => Err (AttributeError "'NoneType' object has no attribute 'height'")
  | Some fng =>
      match (if height fng >? 0
             then join_outer_coalesce fng api_df "Date"
             else Ok api_df) with
      | Err e => Err e
      | Ok combined =>
          match parse_date start_date with
          | Err e => Err e
          | Ok s =>
              match parse_date end_date with
              | Err e => Err e
              | Ok e =>
                  match join_left (date_range_frame s e) combined "Date" with
                  | Err e => Err e
                  | Ok result =>
                      match with_columns result "Fear Greed"
                              (if backfill then fill_null_backward
                               else fill_null 0) with
                      | Err e => Err e
                      | Ok result => sort result "Date"
                      end
                  end
              end
          end
      end
  end.

Definition process_data (w : World) (start_date end_date : string)
  (csv_file : option Path) (backfill : bool) : M DataFrame :=
  fng_data <- match csv_file with
              | Some p => load_existing_data w p
              | None => ret (Some empty_frame)
              end ;;
  api_data <- fetch_historical_data w start_date ;;
  historical_data <- match api_data with
                     | Some (Some l) => ret l
                     | Some None => raise (KeyError "data")
                     | None => raise (KeyError "fear_and_greed_historical")
                     end ;;
  api_records <- lift (convert_records (utcoffset w) historical_data) ;;
  lift (merge_and_fill fng_data api_records start_date end_date backfill).

Definition lower_ascii (c : ascii) : ascii :=
  let n := nat_of_ascii c in
  if (Nat.leb 65 n && Nat.leb n 90)%bool then ascii_of_nat (n + 32) else c.

Definition upper_ascii (c : ascii) : ascii :=
  let n := nat_of_ascii c in
  if (Nat.leb 97 n && Nat.leb n 122)%bool then ascii_of_nat (n - 32) else c.

Fixpoint map_string (f : ascii -> ascii) (s : string) : string :=
  match s with
  | EmptyString => EmptyString
  | String c rest => String (f c) (map_string f rest)
  end.

Definition lower : string -> string := map_string lower_ascii.

Definition newline : string := String (ascii_of_nat 10) EmptyString.

Definition upper : string -> string := map_string upper_ascii.

Definition save_data (w : World) (data : DataFrame) (output_path : Path)
  (format_type : string) : M unit :=
  (if String.eqb (lower format_type) "parquet" then
     emit (WriteParquet (path_str output_path) data) ;;;
     lift (write_file w output_path)
   else if String.eqb (lower format_type) "csv" then
     emit (WriteCsv (path_str output_path) data) ;;;
     lift (write_file w output_path)
   else raise (ValueError ("Unsupported format: " ++ format_type)%string)) ;;;
  emit (Print ("[green]✓ Data saved to " ++ path_str output_path
               ++ "[/green]")%string).

(** The tables of [display_summary] are one event carrying the frame. *)
Definition display_summary (data : DataFrame) : M unit :=
  emit (PrintSummary data).

(** ** The [scrape] command *)

(** [str(e)] of a caught exception; of an error of polars, the name of
    the column alone. *)
Definition exn_str (e : exn) : string :=
  match e with
  | AttributeError m | ValueError m | OverflowError m
  | RequestException m | OSError m => m
  | ColumnNotFoundError c => c
  | KeyError k => ("'" ++ k ++ "'")%string
  | Exit _ => EmptyString
  end.

(** [try: m except ValueError as e: h e] *)
Definition catch_ValueError {A} (m : M A) (h : exn -> M A) : M A :=
  match m with
  | (t, Err (ValueError msg)) =>
      let (t', r) := h (ValueError msg) in (t ++ t', r)
  | other => other
  end.

(** The callback of the [end_date] option: an empty value becomes today. *)
Definition end_date_callback (today v : string) : string :=
  if String.eqb v EmptyString then today else v.

Definition scrape (w : World) (start_date end_date : string)
  (input_csv : option Path) (output_file : Path) (format_type : string)
  (backfill show_summary : bool) : M unit :=
  (* Validate format *)
  (if negb (existsb (String.eqb (lower format_type)) ["parquet"; "csv"]%string)
   then emit (Print "[red]Error: Format must be 'parquet' or 'csv'[/red]") ;;;
        raise (Exit 1)
   else ret tt) ;;;
  (* Validate dates *)
  catch_ValueError
    (start_dt <- lift (parse_date start_date) ;;
     end_dt <- lift (parse_date end_date) ;;
     if start_dt >? end_dt
     then emit (Print "[red]Error: Start date must be before end date[/red]") ;;;
          raise (Exit 1)
     else ret tt)
    (fun e =>
       emit (Print ("[red]Error: Invalid date format. Use YYYY-MM-DD. "
                    ++ exn_str e ++ "[/red]")%string) ;;;
       raise (Exit 1)) ;;;
  (* Ensure output file has correct extension *)
  output_file <-
    (if String.eqb (lower format_type) "parquet"
        && negb (String.eqb (suffix output_file) ".parquet")
     then lift (with_suffix output_file ".parquet")
     else if String.eqb (lower format_type) "csv"
             && negb (String.eqb (suffix output_file) ".csv")
     then lift (with_suffix output_file ".csv")
     else ret output_file) ;;
  catch
    (emit (Print "[bold blue]Fear and Greed Index Scraper[/bold blue]") ;;;
     emit (Print ("Date range: " ++ start_date ++ " to " ++ end_date)%string) ;;;
     match input_csv with
     | Some p => emit (Print ("Input CSV: " ++ path_str p)%string)
     | None => ret tt
     end ;;;
     emit (Print ("Output: " ++ path_str output_file ++ " ("
                  ++ upper format_type ++ ")")%string) ;;;
     emit (Print ("Backfill: "
                  ++ (if backfill then "Enabled" else "Disabled"))%string) ;;;
     emit (Print EmptyString) ;;;
     data <- process_data w start_date end_date input_csv backfill ;;
     save_data w data output_file format_type ;;;
     (if show_summary
      then emit (Print EmptyString) ;;; display_summary data
      else ret tt) ;;;
     emit (Print (newline ++ "[bold green]âœ“ Successfully processed "
                  ++ str_int (height data) ++ " records![/bold green]")%string))
    (fun e =>
       emit (Print ("[red]Error: " ++ exn_str e ++ "[/red]")%string) ;;;
       raise (Exit 1)).

(** ** The two input series *)

(** The rows the loader hands to the merge: those of the file when
    [csv_file] names a readable file, none when no file is given. *)
Definition existing_rows (w : World) (csv_file : option Path)
  : list (cell * cell) :=
  match csv_file with
  | Some p =>
      if path_exists w p
      then match read_csv w p with Ok rs => rs | Err _ => [] end
      else []
  | None => []
  end.

(** The observations converted from the payload fetched for [start_date]. *)
Definition fetched_rows (w : World) (start_date : string) : list (Z * Z) :=
  match http_get w (BASE_URL ++ start_date)%string with
  | Ok (Some (Some l)) =>
      match convert_records (utcoffset w) l with Ok os => os | Err _ => [] end
  | _ => []
  end.

(** The cell of row [r] of [df] under column [name]. *)
Definition cell_of (df : DataFrame) (name : string) (r : list cell) : cell :=
  match index_of name (columns df) with
  | Some k => cell_at k r
  | None => None
  end.

(** The values of column [Fear Greed] on the rows of [df] dated [d]. *)
Definition values_on (df : DataFrame) (d : Z) : list cell :=
  map (cell_of df "Fear Greed")
      (filter (fun r => key_match (cell_of df "Date" r) (Some d)) (rows df)).

Definition non_null (cs : list cell) : list Z :=
  flat_map (fun c => match c with Some v => [v] | None => [] end) cs.

(** ** The intermediate frames of [process_data], row by row *)

Definition api_rows (api : list (Z * Z)) : list (list cell) :=
  map (fun r => [Some (fst r); Some (snd r)]) api.

Definition file_rows (ex : list (cell * cell)) : list (list cell) :=
  map (fun r => [fst r; snd r]) ex.

(** The rows of [combined] (lines 91-95). *)
Definition combined_rows (ex : list (cell * cell)) (api : list (Z * Z))
  : list (list cell) :=
  match ex with
  | [] => api_rows api
  | _ => left_join_rows 0 0 1 (file_rows ex) (api_rows api)
         ++ unmatched_right_rows 0 0 2 (file_rows ex) (api_rows api)
  end.

(** The number of value columns of [combined]. *)
Definition combined_width (ex : list (cell * cell)) : nat :=
  match ex with [] => 1%nat | _ => 2%nat end.

Definition result_columns (ex : list (cell * cell)) : list string :=
  match ex with
  | [] => ["Date"; "Fear Greed"]%string
  | _ => ["Date"; "Fear Greed"; "Fear Greed_right"]%string
  end.

(** The rows of [result] after the left join of line 107. *)
Definition joined_rows (ex : list (cell * cell)) (api : list (Z * Z))
  (s e : Z) : list (list cell) :=
  left_join_rows 0 0 (combined_width ex)
    (map (fun d => [Some d]) (date_range s e)) (combined_rows ex api).

Definition fill_strategy (backfill : bool) : list cell -> list cell :=
  if backfill then fill_null_backward else fill_null 0.

Definition filled_rows (backfill : bool) (j : list (list cell))
  : list (list cell) :=
  set_column 1 (fill_strategy backfill (get_column 1 j)) j.

Definition cell_le (a b : cell) : Prop := cell_leb a b = true.

(** ** The rows that the left join makes for one calendar day *)

Definition day_rows (width : nat) (combined : list (list cell)) (d : Z)
  : list (list cell) :=
  match matches 0 0 [Some d] combined with
  | [] => [[Some d] ++ repeat None width]
  | ms => map (fun rr => [Some d] ++ remove_nth 0 rr) ms
  end.

Definition unmatched_date (ex : list (cell * cell)) (d : Z) : bool :=
  negb (existsb (fun lr => key_match (cell_at 0 lr) (Some d)) (file_rows ex)).

(** ** Worked inputs *)

Definition utc : Z -> Z := fun _ => 0.

Definition old_csv : Path := {| stem := "fng_data"; suffix := ".csv" |}.

(** 2024-01-01 -> 20 and 2024-01-03 -> 30, as epoch milliseconds. *)
Definition scenario_payload : list record :=
  [ {| x := JInt 1704067200000; y := JInt 20 |};
    {| x := JInt 1704240000000; y := JInt 30 |} ].

(** The end-to-end scenario: the file holds 2024-01-01 -> 10. *)
Definition scenario_world : World :=
  {| utcoffset := utc;
     http_get := fun _ => Ok (Some (Some scenario_payload));
     path_exists := fun _ => true;
     read_csv := fun _ => Ok [(Some 738886, Some 10)];
     write_file := fun _ => Ok tt |}.

(** What the code returns in the scenario under zero-fill. *)
Definition scenario_zero_filled : DataFrame :=
  {| columns := ["Date"; "Fear Greed"; "Fear Greed_right"]%string;
     rows := [[Some 738886; Some 10; Some 20]; [Some 738887; Some 0; None];
              [Some 738888; Some 0; Some 30]] |}.

Definition scenario_url : string :=
  "https://production.dataviz.cnn.io/index/fearandgreed/graphdata/2024-01-01".

Definition zero_cell (c : cell) : cell :=
  match c with Some u => Some u | None => Some 0 end.

(** ** Further worked inputs and the frames the code returns on them *)

Definition scenario_backfilled : DataFrame :=
  {| columns := ["Date"; "Fear Greed"; "Fear Greed_right"]%string;
     rows := [[Some 738886; Some 10; Some 20]; [Some 738887; None; None];
              [Some 738888; None; Some 30]] |}.

(** The same payload when the file named on the command line is absent. *)
Definition missing_file_world : World :=
  {| utcoffset := utc;
     http_get := fun _ => Ok (Some (Some scenario_payload));
     path_exists := fun _ => false;
     read_csv := fun _ => Err (OSError "No such file or directory");
     write_file := fun _ => Ok tt |}.

Definition fetched_only : DataFrame :=
  {| columns := ["Date"; "Fear Greed"]%string;
     rows := [[Some 738886; Some 20]; [Some 738887; Some 0];
              [Some 738888; Some 30]] |}.

(** A file that is complete over 2024-01-01 .. 2024-01-03 and a payload
    without entries. *)
Definition complete_rows : list (cell * cell) :=
  [(Some 738886, Some 10); (Some 738887, Some 15); (Some 738888, Some 30)].

Definition empty_payload_world : World :=
  {| utcoffset := utc;
     http_get := fun _ => Ok (Some (Some []));
     path_exists := fun _ => true;
     read_csv := fun _ => Ok complete_rows;
     write_file := fun _ => Ok tt |}.

(** ** The payload conversion in the words of the specification *)

(** The number a JSON number denotes. *)
Definition number_value (n : json_number) : Q :=
  match n with
  | JInt z => inject_Z z
  | JFloat q => q
  | JNaN | JInfinity => 0%Q
  end.

(** Rounding to the nearest integer, ties to even: Python's [round]. *)
Definition py_round (q : Q) : Z :=
  let f := Qfloor q in
  match Qcompare (q - inject_Z f) (1 # 2) with
  | Lt => f
  | Gt => f + 1
  | Eq => if Z.even f then f else f + 1
  end.

(** The conversion as the specification words it: the date of
    [floor (x / 1000)] and the value [round y]. *)
Definition payload_conversion_as_specified : Prop :=
  forall tz r d v,
    convert_record tz r = Ok (d, v) ->
    d = local_date tz (Qfloor (number_value (x r) / 1000)) /\
    v = py_round (number_value (y r)).

(** ** The backward fill, day by day *)

(** The fetched value for date [d], null when there is none. *)
Definition observed (api : list (Z * Z)) (d : Z) : cell :=
  match find (fun r => fst r =? d) api with
  | Some r => Some (snd r)
  | None => None
  end.

(** The first non-null cell of a column, null when there is none. *)
Fixpoint first_some (col : list cell) : cell :=
  match col with
  | [] => None
  | Some u :: _ => Some u
  | None :: rest => first_some rest
  end.

(** One row per day, valued by the next known value from that day on. *)
Fixpoint backfilled_days (f : Z -> cell) (ds : list Z) : list (list cell) :=
  match ds with
  | [] => []
  | d :: rest => [Some d; first_some (map f (d :: rest))] :: backfilled_days f rest
  end.

(** ** Events that touch the output file *)

Definition is_write (ev : event) : bool :=
  match ev with
  | WriteParquet _ _ | WriteCsv _ _ => true
  | _ => false
  end.

Definition is_request (ev : event) : bool :=
  match ev with
  | HttpGet _ => true
  | _ => false
  end.

(** ** The default of the [end_date] option

    [datetime.now().strftime("%Y-%m-%d")] (cli.py, lines 31-32), for the
    calendar fields of today; years of four digits. *)

Definition digit_char (n : Z) : ascii := ascii_of_nat (48 + Z.to_nat n).

Definition strftime (year month day : Z) : string :=
  String (digit_char (year / 1000))
 (String (digit_char (year / 100 mod 10))
 (String (digit_char (year / 10 mod 10))
 (String (digit_char (year mod 10))
 (String "-"
 (String (digit_char (month / 10))
 (String (digit_char (month mod 10))
 (String "-"
 (String (digit_char (day / 10))
 (String (digit_char (day mod 10)) EmptyString))))))))).

(** ** A run of [scrape], seen from outside *)

Definition is_print (ev : event) : bool :=
  match ev with
  | Print _ => true
  | _ => false
  end.

(** The output path after lines 86-89 of cli.py. *)
Definition normalized_output (format_type : string) (output_file : Path)
  : M Path :=
  if String.eqb (lower format_type) "parquet"
     && negb (String.eqb (suffix output_file) ".parquet")
  then lift (with_suffix output_file ".parquet")
  else if String.eqb (lower format_type) "csv"
          && negb (String.eqb (suffix output_file) ".csv")
  then lift (with_suffix output_file ".csv")
  else ret output_file.

(** The write that [save_data] issues for a supported format. *)
Definition write_event (format_type : string) (p : Path) (data : DataFrame)
  : event :=
  if String.eqb (lower format_type) "parquet"
  then WriteParquet (path_str p) data
  else WriteCsv (path_str p) data.

(** The line that [scrape] prints for a caught exception. *)
Definition error_line (e : exn) : event :=
  Print ("[red]Error: " ++ exn_str e ++ "[/red]")%string.

(** What the code returns for the scenario payload alone, backward-filled. *)
Definition fetched_only_backfilled : DataFrame :=
  {| columns := ["Date"; "Fear Greed"]%string;
     rows := [[Some 738886; Some 20]; [Some 738887; Some 30];
              [Some 738888; Some 30]] |}.

(** ** Figures of [display_summary]

    [data["Fear Greed"].min()] (line 148), the height of
    [data.filter(pl.col("Fear Greed") == 0)] (line 150) and the cell
    [str(min_fng) if min_fng else "N/A"] (line 160), on the column
    [Fear Greed]. Nulls are skipped by [min] and dropped by the filter. *)

Fixpoint series_min (col : list cell) : option Z :=
  match col with
  | [] => None
  | None :: rest => series_min rest
  | Some u :: rest =>
      match series_min rest with
      | Some m => Some (Z.min u m)
      | None => Some u
      end
  end.

Definition missing_count (col : list cell) : Z :=
  Z.of_nat (List.length (filter (fun c => key_match c (Some 0)) col)).

Definition min_cell (col : list cell) : string :=
  match series_min col with
  | Some m => if m =? 0 then "N/A"%string else str_int m
  | None => "N/A"%string
  end.

(** ** Plain text

    Text free of ['['] carries no markup of its own; [strptime] above is
    Python's on ASCII text; a [pl.Int64] cell holds 64 bits. *)

Fixpoint no_bracket (s : string) : bool :=
  match s with
  | EmptyString => true
  | String c rest => negb (Ascii.eqb c "[") && no_bracket rest
  end.

Fixpoint is_ascii (s : string) : bool :=
  match s with
  | EmptyString => true
  | String c rest => Nat.ltb (nat_of_ascii c) 128 && is_ascii rest
  end.

Definition plain (s : string) : bool := is_ascii s && no_bracket s.

Definition plain_char (c : ascii) : bool :=
  Nat.ltb (nat_of_ascii c) 128 && negb (Ascii.eqb c "[").

Definition in_int64 (v : Z) : bool := (- 2 ^ 63 <=? v) && (v <? 2 ^ 63).

(** ** The validation in the words of the specification *)



(** * Properties *)

(** ** The effect layer of [process_data] *)

Lemma process_data_returns w start_date end_date csv_file backfill t df :
  process_data w start_date end_date csv_file backfill = (t, Ok df) ->
  merge_and_fill (Some (existing_frame (existing_rows w csv_file)))
    (fetched_rows w start_date) start_date end_date backfill = Ok df.
Proof.
  unfold process_data, fetched_rows, existing_rows, fetch_historical_data,
    load_existing_data, bind, lift, emit, ret, raise.
  destruct csv_file as [p|].
  - destruct (path_exists w p); simpl negb; cbv iota.
    + destruct (read_csv w p) as [rs|err]; [|discriminate].
      destruct (http_get w _) as [[[l|]|]|err]; try discriminate.
      destruct (convert_records _ l) as [os|err]; [|discriminate].
      destruct (merge_and_fill _ _ _ _ _); intros H; inversion H; reflexivity.
    + destruct (http_get w _) as [[[l|]|]|err]; try discriminate.
      destruct (convert_records _ l) as [os|err]; discriminate.
  - destruct (http_get w _) as [[[l|]|]|err]; try discriminate.
    destruct (convert_records _ l) as [os|err]; [|discriminate].
    change empty_frame with (existing_frame []).
    destruct (merge_and_fill _ _ _ _ _); intros H; inversion H; reflexivity.
Qed.

Lemma merge_and_fill_eq ex api ss es b s e :
  strptime ss = Some s -> strptime es = Some e -> api <> [] ->
  merge_and_fill (Some (existing_frame ex)) api ss es b =
  Ok {| columns := result_columns ex;
        rows := sort_rows 0 (filled_rows b (joined_rows ex api s e)) |}.
Proof.
  intros Hs He Hapi. unfold merge_and_fill, parse_date.
  rewrite Hs, He.
  destruct api as [|a api]; [congruence|].
  destruct ex as [|x ex]; reflexivity.
Qed.

Lemma merge_and_fill_inv ex api ss es b df :
  merge_and_fill (Some (existing_frame ex)) api ss es b = Ok df ->
  exists s e,
    strptime ss = Some s /\ strptime es = Some e /\ api <> [] /\
    df = {| columns := result_columns ex;
            rows := sort_rows 0 (filled_rows b (joined_rows ex api s e)) |}.
Proof.
  intros H.
  destruct (strptime ss) as [s|] eqn:Hs.
  - destruct (strptime es) as [e|] eqn:He.
    + destruct api as [|a api].
      * exfalso. unfold merge_and_fill, parse_date in H. rewrite Hs, He in H.
        destruct ex; discriminate H.
      * exists s, e. repeat split; try discriminate.
        rewrite (merge_and_fill_eq ex (a :: api) ss es b s e Hs He) in H
          by discriminate.
        now inversion H.
    + exfalso. unfold merge_and_fill, parse_date in H. rewrite Hs, He in H.
      destruct (if height _ >? 0 then _ else _); discriminate H.
  - exfalso. unfold merge_and_fill, parse_date in H. rewrite Hs in H.
    destruct (if height _ >? 0 then _ else _); discriminate H.
Qed.

(** ** Lists, the date range and the sort *)

Lemma flat_map_map {A B C} (f : B -> list C) (g : A -> B) (l : list A) :
  flat_map f (map g l) = flat_map (fun a => f (g a)) l.
Proof.
  induction l as [|a l IH]; simpl; [reflexivity|]. now rewrite IH.
Qed.

Lemma StronglySorted_app {A} (R : A -> A -> Prop) (l1 l2 : list A) :
  StronglySorted R l1 -> StronglySorted R l2 ->
  (forall a b, In a l1 -> In b l2 -> R a b) ->
  StronglySorted R (l1 ++ l2).
Proof.
  induction l1 as [|a l1 IH]; simpl; intros H1 H2 H12; [exact H2|].
  inversion H1 as [|? ? Hs Hall]; subst.
  constructor.
  - apply IH; auto.
  - apply Forall_app. split; [exact Hall|].
    apply Forall_forall. intros b Hb. apply H12; auto.
Qed.

Lemma date_range_In s e d : In d (date_range s e) <-> s <= d <= e.
Proof.
  unfold date_range. rewrite in_map_iff. split.
  - intros [i [<- Hi]]. apply in_seq in Hi. lia.
  - intros H. exists (Z.to_nat (d - s)). split; [lia|].
    apply in_seq. lia.
Qed.

Lemma range_from_sorted s a n :
  StronglySorted Z.lt (map (fun i => s + Z.of_nat i) (seq a n)).
Proof.
  revert a. induction n as [|n IH]; intros a; simpl; constructor.
  - apply IH.
  - apply Forall_forall. intros d Hd. apply in_map_iff in Hd.
    destruct Hd as [i [<- Hi]]. apply in_seq in Hi. lia.
Qed.

Lemma date_range_sorted s e : StronglySorted Z.lt (date_range s e).
Proof. apply range_from_sorted. Qed.

Lemma date_range_length s e :
  s <= e -> Z.of_nat (List.length (date_range s e)) = e - s + 1.
Proof.
  intros H. unfold date_range. rewrite length_map, length_seq. lia.
Qed.

Lemma date_range_NoDup s e : NoDup (date_range s e).
Proof.
  pose proof (date_range_sorted s e) as H.
  induction H as [|d l Hs IH Hall]; constructor; auto.
  intros Hin. rewrite Forall_forall in Hall. specialize (Hall d Hin). lia.
Qed.

Lemma sort_rows_sorted_id k rs :
  StronglySorted cell_le (get_column k rs) -> sort_rows k rs = rs.
Proof.
  induction rs as [|r rs IH]; intros H; [reflexivity|].
  simpl in H. inversion H as [|? ? Hs Hall]; subst.
  change (sort_rows k (r :: rs)) with (insert_row k r (sort_rows k rs)).
  rewrite (IH Hs).
  destruct rs as [|r' rs]; simpl; [reflexivity|].
  simpl in Hall. inversion Hall as [|? ? Hle _]; subst.
  unfold cell_le in Hle. now rewrite Hle.
Qed.

Lemma cell_leb_total a b : cell_leb a b = false -> cell_leb b a = true.
Proof.
  destruct a, b; simpl; try reflexivity; try discriminate.
  intros H. apply Z.leb_gt in H. apply Z.leb_le. lia.
Qed.

Lemma cell_le_trans a b c : cell_le a b -> cell_le b c -> cell_le a c.
Proof.
  unfold cell_le. destruct a, b, c; simpl; try reflexivity; try discriminate.
  rewrite !Z.leb_le. lia.
Qed.

Lemma insert_row_In k r rs r0 :
  In r0 (insert_row k r rs) <-> r0 = r \/ In r0 rs.
Proof.
  induction rs as [|r' rs IH]; simpl.
  - intuition.
  - destruct (cell_leb _ _); simpl; [intuition|].
    rewrite IH. intuition.
Qed.

Lemma insert_row_sorted k r rs :
  StronglySorted cell_le (get_column k rs) ->
  StronglySorted cell_le (get_column k (insert_row k r rs)).
Proof.
  induction rs as [|r' rs IH]; simpl; intros H.
  - constructor; constructor.
  - inversion H as [|? ? Hs Hall]; subst.
    destruct (cell_leb (cell_at k r) (cell_at k r')) eqn:E; simpl.
    + constructor; [exact H|]. constructor; [exact E|].
      eapply Forall_impl; [|exact Hall]. intros c Hc.
      eapply cell_le_trans; [exact E|exact Hc].
    + constructor; [apply IH; exact Hs|].
      apply Forall_forall. intros c Hc. unfold get_column in Hc.
      apply in_map_iff in Hc. destruct Hc as [r0 [<- Hr0]].
      apply insert_row_In in Hr0. destruct Hr0 as [->|Hr0].
      * now apply cell_leb_total.
      * rewrite Forall_forall in Hall. apply Hall.
        unfold get_column. now apply in_map.
Qed.

Lemma sort_rows_sorted k rs :
  StronglySorted cell_le (get_column k (sort_rows k rs)).
Proof.
  induction rs as [|r rs IH]; [constructor|].
  change (sort_rows k (r :: rs)) with (insert_row k r (sort_rows k rs)).
  now apply insert_row_sorted.
Qed.

(** ** The rows that the left join makes for one calendar day *)

Lemma joined_rows_eq ex api s e :
  joined_rows ex api s e =
  flat_map (day_rows (combined_width ex) (combined_rows ex api))
           (date_range s e).
Proof.
  unfold joined_rows, left_join_rows. now rewrite flat_map_map.
Qed.

Lemma day_rows_key width combined d r :
  In r (day_rows width combined d) -> cell_at 0 r = Some d.
Proof.
  unfold day_rows. destruct (matches 0 0 [Some d] combined) as [|m ms].
  - intros [<-|[]]. reflexivity.
  - intros H. apply in_map_iff in H. destruct H as [rr [<- _]]. reflexivity.
Qed.

Lemma day_rows_nonempty width combined d : day_rows width combined d <> [].
Proof.
  unfold day_rows. destruct (matches 0 0 [Some d] combined); discriminate.
Qed.

Lemma joined_rows_In ex api s e r :
  In r (joined_rows ex api s e) <->
  exists d, s <= d <= e /\
            In r (day_rows (combined_width ex) (combined_rows ex api) d).
Proof.
  rewrite joined_rows_eq, in_flat_map. split.
  - intros [d [Hd Hr]]. exists d. split; [now apply date_range_In|exact Hr].
  - intros [d [Hd Hr]]. exists d. split; [now apply date_range_In|exact Hr].
Qed.

(** Filling column 1 leaves the key column alone. *)
Lemma replace_nth_1_key c (r : list cell) :
  cell_at 0 (replace_nth 1 c r) = cell_at 0 r.
Proof. destruct r as [|a [|b r]]; reflexivity. Qed.

Lemma set_column_1_keys col rs :
  get_column 0 (set_column 1 col rs) = get_column 0 rs.
Proof.
  revert col. induction rs as [|r rs IH]; intros [|c col]; simpl;
    try reflexivity.
  rewrite IH. f_equal. apply replace_nth_1_key.
Qed.

Lemma set_column_length k col rs :
  List.length (set_column k col rs) = List.length rs.
Proof.
  revert col. induction rs as [|r rs IH]; intros [|c col]; simpl;
    try reflexivity.
  now rewrite IH.
Qed.

Lemma filled_rows_keys b j : get_column 0 (filled_rows b j) = get_column 0 j.
Proof. apply set_column_1_keys. Qed.

Lemma constant_keys_sorted d (l : list cell) :
  (forall c, In c l -> c = Some d) -> StronglySorted cell_le l.
Proof.
  induction l as [|c l IH]; intros H; constructor.
  - apply IH. intros c' Hc'. apply H. now right.
  - apply Forall_forall. intros c' Hc'.
    rewrite (H c (or_introl eq_refl)), (H c' (or_intror Hc')).
    unfold cell_le. simpl. apply Z.leb_refl.
Qed.

Lemma keys_flat_map_sorted (f : Z -> list (list cell)) ds :
  (forall d r, In r (f d) -> cell_at 0 r = Some d) ->
  StronglySorted Z.lt ds ->
  StronglySorted cell_le (get_column 0 (flat_map f ds)).
Proof.
  intros Hkey Hs. induction Hs as [|d ds Hs IH Hall]; simpl; [constructor|].
  unfold get_column. rewrite map_app. apply StronglySorted_app.
  - apply (constant_keys_sorted d). intros c Hc.
    apply in_map_iff in Hc. destruct Hc as [r [<- Hr]]. now apply Hkey.
  - exact IH.
  - intros a b Ha Hb.
    apply in_map_iff in Ha. destruct Ha as [r [<- Hr]].
    apply in_map_iff in Hb. destruct Hb as [r' [<- Hr']].
    apply in_flat_map in Hr'. destruct Hr' as [d' [Hd' Hr']].
    rewrite (Hkey _ _ Hr), (Hkey _ _ Hr').
    rewrite Forall_forall in Hall. specialize (Hall d' Hd').
    unfold cell_le. simpl. apply Z.leb_le. lia.
Qed.

Lemma joined_rows_sorted ex api s e :
  StronglySorted cell_le (get_column 0 (joined_rows ex api s e)).
Proof.
  rewrite joined_rows_eq. apply keys_flat_map_sorted.
  - intros d r. apply day_rows_key.
  - apply date_range_sorted.
Qed.

(** The join has already put the rows in date order: sorting changes
    nothing. *)
Lemma sorted_filled_rows b ex api s e :
  sort_rows 0 (filled_rows b (joined_rows ex api s e)) =
  filled_rows b (joined_rows ex api s e).
Proof.
  apply sort_rows_sorted_id. rewrite filled_rows_keys.
  apply joined_rows_sorted.
Qed.

Lemma result_columns_Date ex : index_of "Date" (result_columns ex) = Some 0%nat.
Proof. destruct ex; reflexivity. Qed.

Lemma result_columns_Fear_Greed ex :
  index_of "Fear Greed" (result_columns ex) = Some 1%nat.
Proof. destruct ex; reflexivity. Qed.

(** What [process_data] returns, when it returns. *)
Lemma process_data_frame w ss es csv b t df :
  process_data w ss es csv b = (t, Ok df) ->
  exists s e,
    strptime ss = Some s /\ strptime es = Some e /\
    fetched_rows w ss <> [] /\
    df = {| columns := result_columns (existing_rows w csv);
            rows := filled_rows b
                      (joined_rows (existing_rows w csv)
                                   (fetched_rows w ss) s e) |}.
Proof.
  intros H. apply process_data_returns in H.
  apply merge_and_fill_inv in H.
  destruct H as [s [e [Hs [He [Hapi ->]]]]].
  exists s, e. rewrite sorted_filled_rows. auto.
Qed.

(** ** Unique dates in, unique dates out *)

Lemma non_null_app a b : non_null (a ++ b) = non_null a ++ non_null b.
Proof. unfold non_null. apply flat_map_app. Qed.

Lemma non_null_map_Some l : non_null (map Some l) = l.
Proof. induction l as [|a l IH]; simpl; [reflexivity|]. now rewrite IH. Qed.

Lemma in_non_null d l : In d (non_null l) <-> In (Some d) l.
Proof.
  induction l as [|c l IH]; simpl; [tauto|].
  rewrite in_app_iff, IH. destruct c as [v|]; simpl.
  - split.
    + intros [[->|[]]|H]; auto.
    + intros [H|H]; [inversion H; auto|auto].
  - split.
    + intros [[]|H]; auto.
    + intros [H|H]; [discriminate|auto].
Qed.

Lemma matches_null lr combined :
  cell_at 0 lr = None -> matches 0 0 lr combined = [].
Proof.
  intros H. unfold matches. rewrite H.
  induction combined as [|rr c IH]; simpl; [reflexivity|exact IH].
Qed.

Lemma matches_length lr d combined :
  cell_at 0 lr = Some d ->
  List.length (matches 0 0 lr combined) =
  count_occ Z.eq_dec (non_null (get_column 0 combined)) d.
Proof.
  intros H. unfold matches. rewrite H.
  induction combined as [|rr c IH]; [reflexivity|].
  cbn [filter get_column map non_null flat_map].
  fold (get_column 0 c). fold (non_null (get_column 0 c)).
  destruct (cell_at 0 rr) as [v|]; cbn [key_match app count_occ].
  - destruct (Z.eq_dec v d) as [->|Hne].
    + rewrite Z.eqb_refl. cbn [List.length]. f_equal. exact IH.
    + destruct (Z.eqb_spec d v) as [->|_]; [congruence|exact IH].
  - exact IH.
Qed.

Lemma matches_at_most_one lr combined :
  NoDup (non_null (get_column 0 combined)) ->
  (List.length (matches 0 0 lr combined) <= 1)%nat.
Proof.
  intros Hnd. destruct (cell_at 0 lr) as [d|] eqn:E.
  - rewrite (matches_length lr d combined E).
    now apply NoDup_count_occ.
  - rewrite (matches_null lr combined E). simpl. lia.
Qed.

Lemma api_rows_keys api : get_column 0 (api_rows api) = map Some (map fst api).
Proof.
  unfold get_column, api_rows. rewrite !map_map. reflexivity.
Qed.

Lemma file_rows_keys ex : get_column 0 (file_rows ex) = map fst ex.
Proof.
  unfold get_column, file_rows. rewrite map_map. reflexivity.
Qed.

(** With unique fetched dates every row of the file occurs once in the
    outer join. *)
Lemma left_join_file_keys ex api :
  NoDup (map fst api) ->
  get_column 0 (left_join_rows 0 0 1 (file_rows ex) (api_rows api)) =
  map fst ex.
Proof.
  intros Hnd. unfold left_join_rows.
  induction ex as [|[c v] ex IH]; [reflexivity|].
  change (file_rows ((c, v) :: ex)) with ([c; v] :: file_rows ex).
  cbn [flat_map]. unfold get_column in *. rewrite map_app, IH. clear IH.
  assert (Hle : (List.length (matches 0 0 [c; v] (api_rows api)) <= 1)%nat).
  { apply matches_at_most_one.
    now rewrite api_rows_keys, non_null_map_Some. }
  destruct (matches 0 0 [c; v] (api_rows api)) as [|m [|m' ms]].
  - reflexivity.
  - reflexivity.
  - simpl in Hle. lia.
Qed.

Lemma unmatched_right_keys ex api :
  non_null (get_column 0
    (unmatched_right_rows 0 0 2 (file_rows ex) (api_rows api))) =
  filter (unmatched_date ex) (map fst api).
Proof.
  unfold unmatched_right_rows, get_column. rewrite map_map.
  induction api as [|[d v] api IH]; [reflexivity|].
  change (api_rows ((d, v) :: api)) with ([Some d; Some v] :: api_rows api).
  cbn [filter map fst].
  change (negb (existsb
            (fun lr => key_match (cell_at 0 lr) (cell_at 0 [Some d; Some v]))
            (file_rows ex)))
    with (unmatched_date ex d).
  destruct (unmatched_date ex d).
  - cbn [map non_null flat_map]. fold (non_null). rewrite <- IH. reflexivity.
  - exact IH.
Qed.

Lemma unmatched_date_false ex d :
  In (Some d) (map fst ex) -> unmatched_date ex d = false.
Proof.
  intros H. unfold unmatched_date. apply negb_false_iff, existsb_exists.
  apply in_map_iff in H. destruct H as [[c v] [Hc Hin]]. simpl in Hc. subst c.
  exists [Some d; v]. split.
  - unfold file_rows. apply in_map_iff. now exists (Some d, v).
  - simpl. apply Z.eqb_refl.
Qed.

Lemma combined_rows_unique ex api :
  NoDup (non_null (map fst ex)) -> NoDup (map fst api) ->
  NoDup (non_null (get_column 0 (combined_rows ex api))).
Proof.
  intros Hex Hapi. unfold combined_rows.
  destruct ex as [|x ex].
  - now rewrite api_rows_keys, non_null_map_Some.
  - unfold get_column. rewrite map_app. fold (get_column 0).
    change (map (cell_at 0)) with (get_column 0).
    rewrite non_null_app, left_join_file_keys, unmatched_right_keys by exact Hapi.
    apply NoDup_app.
    + exact Hex.
    + now apply NoDup_filter.
    + intros d Hd Hf. apply filter_In in Hf. destruct Hf as [_ Hf].
      apply in_non_null in Hd.
      rewrite (unmatched_date_false _ d Hd) in Hf. discriminate.
Qed.

Lemma day_rows_single width combined d :
  NoDup (non_null (get_column 0 combined)) ->
  exists r, day_rows width combined d = [r] /\ cell_at 0 r = Some d.
Proof.
  intros Hnd. pose proof (matches_at_most_one [Some d] combined Hnd) as Hle.
  unfold day_rows.
  destruct (matches 0 0 [Some d] combined) as [|m [|m' ms]]; simpl in *.
  - eexists. split; reflexivity.
  - eexists. split; reflexivity.
  - lia.
Qed.

Lemma single_rows_keys width combined ds :
  NoDup (non_null (get_column 0 combined)) ->
  get_column 0 (flat_map (day_rows width combined) ds) = map Some ds.
Proof.
  intros Hnd. induction ds as [|d ds IH]; simpl; [reflexivity|].
  destruct (day_rows_single width combined d Hnd) as [r [-> Hr]].
  simpl. now rewrite Hr, IH.
Qed.

(** ** Range restriction, order and completeness *)

Lemma filled_rows_key_In b j r :
  In r (filled_rows b j) -> exists r0, In r0 j /\ cell_at 0 r0 = cell_at 0 r.
Proof.
  intros H.
  assert (Hk : In (cell_at 0 r) (get_column 0 (filled_rows b j))).
  { unfold get_column. now apply in_map. }
  rewrite filled_rows_keys in Hk. unfold get_column in Hk.
  apply in_map_iff in Hk. destruct Hk as [r0 [Hk Hin]]. now exists r0.
Qed.

Lemma values_on_result ex rs d :
  values_on {| columns := result_columns ex; rows := rs |} d =
  map (cell_at 1) (filter (fun r => key_match (cell_at 0 r) (Some d)) rs).
Proof. destruct ex; reflexivity. Qed.

Lemma cell_of_result_Date ex rs r :
  cell_of {| columns := result_columns ex; rows := rs |} "Date" r = cell_at 0 r.
Proof. destruct ex; reflexivity. Qed.

Lemma column_result_Date ex rs :
  column "Date" {| columns := result_columns ex; rows := rs |} =
  Some (get_column 0 rs).
Proof. destruct ex; reflexivity. Qed.

Lemma filter_none {A} (p : A -> bool) l :
  (forall a, In a l -> p a = false) -> filter p l = [].
Proof.
  induction l as [|a l IH]; simpl; intros H; [reflexivity|].
  rewrite (H a (or_introl eq_refl)). apply IH. intros; apply H; now right.
Qed.

Lemma filter_all {A} (p : A -> bool) l :
  (forall a, In a l -> p a = true) -> filter p l = l.
Proof.
  induction l as [|a l IH]; simpl; intros H; [reflexivity|].
  rewrite (H a (or_introl eq_refl)). f_equal. apply IH. intros; apply H; now right.
Qed.

(** C10. Range restriction: every row of the frame that [process_data]
    returns is dated within [[start, end]], and a date outside the range has
    no row at all, whatever the two inputs hold for it. *)
Theorem range_restriction w ss es csv b t df :
  process_data w ss es csv b = (t, Ok df) ->
  exists s e,
    strptime ss = Some s /\ strptime es = Some e /\
    (forall r, In r (rows df) ->
               exists d, cell_of df "Date" r = Some d /\ s <= d <= e) /\
    (forall d, ~ (s <= d <= e) -> values_on df d = []).
Proof.
  intros H. apply process_data_frame in H.
  destruct H as [s [e [Hs [He [_ ->]]]]].
  exists s, e. split; [exact Hs|]. split; [exact He|].
  assert (Hrows : forall r,
    In r (filled_rows b (joined_rows (existing_rows w csv) (fetched_rows w ss) s e)) ->
    exists d, cell_at 0 r = Some d /\ s <= d <= e).
  { intros r Hr. apply filled_rows_key_In in Hr.
    destruct Hr as [r0 [Hr0 Hk]]. apply joined_rows_In in Hr0.
    destruct Hr0 as [d [Hd Hr0]]. exists d. split; [|exact Hd].
    rewrite <- Hk. eapply day_rows_key; exact Hr0. }
  split.
  - intros r Hr. rewrite cell_of_result_Date. apply Hrows. exact Hr.
  - intros d Hd. rewrite values_on_result.
    rewrite filter_none; [reflexivity|].
    intros r Hr. destruct (Hrows r Hr) as [d' [Hk Hd']]. rewrite Hk.
    simpl. apply Z.eqb_neq. lia.
Qed.

Lemma range_restriction_witness :
  exists s e,
    strptime "2024-01-01" = Some s /\ strptime "2024-01-03" = Some e /\
    (forall r, In r (rows scenario_zero_filled) ->
               exists d, cell_of scenario_zero_filled "Date" r = Some d
                         /\ s <= d <= e) /\
    (forall d, ~ (s <= d <= e) -> values_on scenario_zero_filled d = []).
Proof.
  apply (range_restriction scenario_world "2024-01-01" "2024-01-03"
           (Some old_csv) false
           [ReadCsv "fng_data.csv"; HttpGet scenario_url]
           scenario_zero_filled).
  reflexivity.
Defined.

Lemma sorted_non_null (l : list cell) :
  (forall c, In c l -> c <> None) -> StronglySorted cell_le l ->
  l = map Some (non_null l) /\ StronglySorted Z.le (non_null l).
Proof.
  induction l as [|c l IH]; intros Hnn Hs.
  - split; [reflexivity|constructor].
  - inversion Hs as [|? ? Hs' Hall]; subst.
    destruct IH as [IH1 IH2]; [intros c' Hc'; apply Hnn; now right|exact Hs'|].
    destruct c as [v|]; [|exfalso; now apply (Hnn None (or_introl eq_refl))].
    simpl. split; [now rewrite <- IH1|].
    constructor; [exact IH2|].
    apply Forall_forall. intros u Hu. apply in_non_null in Hu.
    rewrite Forall_forall in Hall. specialize (Hall _ Hu).
    unfold cell_le in Hall. simpl in Hall. now apply Z.leb_le.
Qed.

(** C8. Sort invariant: the [Date] column of the frame that [process_data]
    returns holds non-null dates in ascending order, whatever the order of
    the rows of the file and of the payload. *)
Theorem sort_invariant w ss es csv b t df :
  process_data w ss es csv b = (t, Ok df) ->
  exists ds, column "Date" df = Some (map Some ds) /\ StronglySorted Z.le ds.
Proof.
  intros H. apply process_data_frame in H.
  destruct H as [s [e [_ [_ [_ ->]]]]].
  rewrite column_result_Date, filled_rows_keys.
  pose proof (joined_rows_sorted (existing_rows w csv) (fetched_rows w ss) s e)
    as Hs.
  destruct (sorted_non_null
              (get_column 0 (joined_rows (existing_rows w csv)
                                         (fetched_rows w ss) s e)))
    as [E1 E2]; [|exact Hs|].
  - intros c Hc. unfold get_column in Hc. apply in_map_iff in Hc.
    destruct Hc as [r [<- Hr]]. apply joined_rows_In in Hr.
    destruct Hr as [d [_ Hr]]. rewrite (day_rows_key _ _ _ _ Hr). discriminate.
  - eexists. split; [rewrite E1 at 1; reflexivity|exact E2].
Qed.

Lemma sort_invariant_witness :
  exists ds,
    column "Date" scenario_zero_filled = Some (map Some ds)
    /\ StronglySorted Z.le ds.
Proof.
  apply (sort_invariant scenario_world "2024-01-01" "2024-01-03"
           (Some old_csv) false
           [ReadCsv "fng_data.csv"; HttpGet scenario_url]).
  reflexivity.
Defined.

(** C2. Calendar completeness: for [start <= end] and inputs with unique
    dates, the frame that [process_data] returns has
    [(end - start).days + 1] rows and its [Date] column is the calendar from
    [start] to [end], each day once and in order. *)
Theorem calendar_completeness w ss es csv b t df s e :
  strptime ss = Some s -> strptime es = Some e -> s <= e ->
  NoDup (non_null (map fst (existing_rows w csv))) ->
  NoDup (map fst (fetched_rows w ss)) ->
  process_data w ss es csv b = (t, Ok df) ->
  height df = e - s + 1 /\
  column "Date" df = Some (map Some (date_range s e)) /\
  NoDup (date_range s e) /\
  (forall d, In d (date_range s e) <-> s <= d <= e).
Proof.
  intros Hs He Hle Hex Hapi H. apply process_data_frame in H.
  destruct H as [s' [e' [Hs' [He' [_ ->]]]]].
  rewrite Hs in Hs'. rewrite He in He'. inversion Hs'. inversion He'. subst s' e'.
  set (ex := existing_rows w csv) in *. set (api := fetched_rows w ss) in *.
  assert (Hkeys : get_column 0 (filled_rows b (joined_rows ex api s e)) =
                  map Some (date_range s e)).
  { rewrite filled_rows_keys, joined_rows_eq. apply single_rows_keys.
    now apply combined_rows_unique. }
  split; [|split; [|split]].
  - unfold height. cbn [rows].
    rewrite <- (length_map (cell_at 0)). fold (get_column 0).
    change (map (cell_at 0)) with (get_column 0).
    rewrite Hkeys, length_map. now apply date_range_length.
  - rewrite column_result_Date. now rewrite Hkeys.
  - apply date_range_NoDup.
  - apply date_range_In.
Qed.

Lemma calendar_completeness_witness :
  height scenario_zero_filled = 738888 - 738886 + 1 /\
  column "Date" scenario_zero_filled =
    Some (map Some (date_range 738886 738888)) /\
  NoDup (date_range 738886 738888) /\
  (forall d, In d (date_range 738886 738888) <-> 738886 <= d <= 738888).
Proof.
  apply (calendar_completeness scenario_world "2024-01-01" "2024-01-03"
           (Some old_csv) false
           [ReadCsv "fng_data.csv"; HttpGet scenario_url]
           scenario_zero_filled 738886 738888).
  - reflexivity.
  - reflexivity.
  - lia.
  - simpl. constructor; [intros []|constructor].
  - simpl. constructor; [simpl; intros [H|[]]; discriminate H|].
    constructor; [intros []|constructor].
  - reflexivity.
Defined.

(** ** Zero-fill *)

Lemma set_column_map k (g : cell -> cell) rs :
  set_column k (map g (get_column k rs)) rs =
  map (fun r => replace_nth k (g (cell_at k r)) r) rs.
Proof.
  induction rs as [|r rs IH]; simpl; [reflexivity|]. now rewrite IH.
Qed.

Lemma filled_rows_zero j :
  filled_rows false j = map (fun r => replace_nth 1 (zero_cell (cell_at 1 r)) r) j.
Proof.
  unfold filled_rows, fill_strategy, fill_null. apply set_column_map.
Qed.

(** The dates of the merged frame come from the file or from the payload. *)
Lemma combined_rows_key ex api r d :
  In r (combined_rows ex api) -> cell_at 0 r = Some d ->
  In (Some d) (map fst ex) \/ In d (map fst api).
Proof.
  assert (Hapi : forall rr, In rr (api_rows api) ->
            cell_at 0 rr = Some d -> In d (map fst api)).
  { intros rr Hrr Hk. unfold api_rows in Hrr. apply in_map_iff in Hrr.
    destruct Hrr as [[d' v] [<- Hin]]. simpl in Hk. inversion Hk; subst.
    apply in_map_iff. now exists (d, v). }
  unfold combined_rows. destruct ex as [|x ex].
  - intros Hr Hk. right. eapply Hapi; eauto.
  - set (E := x :: ex). intros Hr Hk. apply in_app_or in Hr.
    destruct Hr as [Hr|Hr].
    + left. unfold left_join_rows in Hr. apply in_flat_map in Hr.
      destruct Hr as [lr [Hlr Hr]].
      assert (Hkey : cell_at 0 r = cell_at 0 lr).
      { unfold file_rows in Hlr. apply in_map_iff in Hlr.
        destruct Hlr as [[c v] [<- _]].
        destruct (matches 0 0 _ _) as [|m ms].
        - destruct Hr as [<-|[]]. reflexivity.
        - apply in_map_iff in Hr. destruct Hr as [rr [<- _]]. reflexivity. }
      rewrite Hk in Hkey. unfold file_rows in Hlr. apply in_map_iff in Hlr.
      destruct Hlr as [[c v] [<- Hin]]. change (Some d = c) in Hkey.
      apply in_map_iff. exists (c, v). split; [now symmetry|exact Hin].
    + right. unfold unmatched_right_rows in Hr. apply in_map_iff in Hr.
      destruct Hr as [rr [<- Hrr]]. apply filter_In in Hrr.
      destruct Hrr as [Hrr _]. apply (Hapi rr Hrr). exact Hk.
Qed.

Lemma day_rows_absent ex api d :
  ~ In (Some d) (map fst ex) -> ~ In d (map fst api) ->
  day_rows (combined_width ex) (combined_rows ex api) d =
  [[Some d] ++ repeat None (combined_width ex)].
Proof.
  intros Hex Hapi. unfold day_rows.
  replace (matches 0 0 [Some d] (combined_rows ex api)) with (@nil (list cell));
    [reflexivity|].
  symmetry. unfold matches. apply filter_none. intros rr Hrr.
  destruct (cell_at 0 rr) as [v|] eqn:E; [|reflexivity].
  simpl. apply Z.eqb_neq. intros ->.
  destruct (combined_rows_key ex api rr v Hrr E); contradiction.
Qed.

Lemma map_flat_map {A B C} (f : B -> C) (g : A -> list B) (l : list A) :
  map f (flat_map g l) = flat_map (fun a => map f (g a)) l.
Proof.
  induction l as [|a l IH]; simpl; [reflexivity|]. now rewrite map_app, IH.
Qed.

Lemma filter_flat_map_day {A} (p : A -> bool) (g : Z -> list A) ds d :
  NoDup ds -> In d ds ->
  (forall d' a, In a (g d') -> p a = (d' =? d)) ->
  filter p (flat_map g ds) = g d.
Proof.
  intros Hnd Hin Hp. induction Hnd as [|a ds Ha Hnd IH]; [destruct Hin|].
  simpl. rewrite filter_app. destruct (Z.eq_dec a d) as [->|Hne].
  - rewrite filter_all by (intros x Hx; rewrite (Hp d x Hx); apply Z.eqb_refl).
    rewrite filter_none; [apply app_nil_r|].
    intros x Hx. apply in_flat_map in Hx. destruct Hx as [d' [Hd' Hx]].
    rewrite (Hp d' x Hx). apply Z.eqb_neq. intros ->. contradiction.
  - rewrite filter_none
      by (intros x Hx; rewrite (Hp a x Hx); now apply Z.eqb_neq).
    simpl. apply IH. destruct Hin as [->|Hin]; [contradiction|exact Hin].
Qed.

(** C4. Zero-fill: with [backfill = False], a date of [[start, end]] for
    which neither the file nor the payload has a row gets exactly one row in
    the returned frame, and its [Fear Greed] value is 0. *)
Theorem zero_fill_absent_dates w ss es csv t df s e d :
  process_data w ss es csv false = (t, Ok df) ->
  strptime ss = Some s -> strptime es = Some e -> s <= d <= e ->
  ~ In (Some d) (map fst (existing_rows w csv)) ->
  ~ In d (map fst (fetched_rows w ss)) ->
  values_on df d = [Some 0].
Proof.
  intros H Hs He Hd Hex Hapi. apply process_data_frame in H.
  destruct H as [s' [e' [Hs' [He' [_ ->]]]]].
  rewrite Hs in Hs'. rewrite He in He'. inversion Hs'. inversion He'. subst s' e'.
  set (ex := existing_rows w csv) in *. set (api := fetched_rows w ss) in *.
  rewrite values_on_result, filled_rows_zero, joined_rows_eq.
  set (zf := fun r : list cell => replace_nth 1 (zero_cell (cell_at 1 r)) r).
  rewrite map_flat_map.
  rewrite (filter_flat_map_day _ _ _ d).
  - rewrite day_rows_absent by assumption.
    destruct ex; reflexivity.
  - apply date_range_NoDup.
  - now apply date_range_In.
  - intros d' a Ha. apply in_map_iff in Ha. destruct Ha as [r [<- Hr]].
    unfold zf. rewrite replace_nth_1_key, (day_rows_key _ _ _ _ Hr). reflexivity.
Qed.

Lemma zero_fill_absent_dates_witness :
  values_on scenario_zero_filled 738887 = [Some 0].
Proof.
  apply (zero_fill_absent_dates scenario_world "2024-01-01" "2024-01-03"
           (Some old_csv)
           [ReadCsv "fng_data.csv"; HttpGet scenario_url]
           scenario_zero_filled 738886 738888 738887).
  - reflexivity.
  - reflexivity.
  - reflexivity.
  - lia.
  - simpl. intros [H|[]]. discriminate H.
  - simpl. intros [H|[H|[]]]; discriminate H.
Defined.

(** ** Merge precedence, the missing file and the empty payload *)

(** C1. Merge precedence, at the end-to-end scenario of the specification:
    the file has 2024-01-01 -> 10 and the payload has 2024-01-01 -> 20, and
    the [Fear Greed] value that [process_data] returns for 2024-01-01 is the
    file's 10; the fetched 20 sits in a third column [Fear Greed_right] and
    the fetched 30 of 2024-01-03 never reaches [Fear Greed], which is
    zero-filled there. *)
Theorem merge_keeps_existing_value :
  existing_rows scenario_world (Some old_csv) = [(Some 738886, Some 10)] /\
  fetched_rows scenario_world "2024-01-01" = [(738886, 20); (738888, 30)] /\
  process_data scenario_world "2024-01-01" "2024-01-03" (Some old_csv) false =
    ([ReadCsv "fng_data.csv"; HttpGet scenario_url], Ok scenario_zero_filled) /\
  values_on scenario_zero_filled 738886 = [Some 10] /\
  values_on scenario_zero_filled 738888 = [Some 0].
Proof. repeat split; reflexivity. Qed.

(** C3. Missing input file: the loader prints its warning and returns
    [None]; after the fetch, [fng_data.height] raises [AttributeError], so
    [process_data] returns nothing, whereas the same call without a file
    returns the frame built from the payload alone. *)
Theorem missing_file_raises :
  process_data missing_file_world "2024-01-01" "2024-01-03" (Some old_csv) false =
    ([Print "[yellow]Warning: fng_data.csv not found[/yellow]";
      HttpGet scenario_url],
     Err (AttributeError "'NoneType' object has no attribute 'height'")) /\
  process_data missing_file_world "2024-01-01" "2024-01-03" None false =
    ([HttpGet scenario_url], Ok fetched_only).
Proof. split; reflexivity. Qed.

(** C5. Backward-fill, at the end-to-end scenario of the specification:
    2024-01-02 has no observation and the nearest later date with one is
    2024-01-03 (fetched, 30), yet the returned [Fear Greed] value for
    2024-01-02 is null, because the fetched values are in
    [Fear Greed_right] and the filled column holds the file's values only. *)
Theorem backfill_ignores_fetched_values :
  process_data scenario_world "2024-01-01" "2024-01-03" (Some old_csv) true =
    ([ReadCsv "fng_data.csv"; HttpGet scenario_url], Ok scenario_backfilled) /\
  In (738888, 30) (fetched_rows scenario_world "2024-01-01") /\
  values_on scenario_backfilled 738887 = [None] /\
  values_on scenario_backfilled 738888 = [None].
Proof. repeat split; try reflexivity. simpl. auto. Qed.

(** C6. Idempotence: a file that is complete over the requested range,
    reconciled with an empty payload, is not returned: the frame made from
    the empty list of records has no [Date] column and the merge raises. *)
Theorem empty_payload_raises :
  existing_rows empty_payload_world (Some old_csv) = complete_rows /\
  fetched_rows empty_payload_world "2024-01-01" = [] /\
  process_data empty_payload_world "2024-01-01" "2024-01-03" (Some old_csv) false =
    ([ReadCsv "fng_data.csv"; HttpGet scenario_url],
     Err (ColumnNotFoundError "Date")) /\
  process_data empty_payload_world "2024-01-01" "2024-01-03" None false =
    ([HttpGet scenario_url], Err (ColumnNotFoundError "Date")).
Proof. repeat split; reflexivity. Qed.

(** Without a payload entry [process_data] never returns a frame. *)
Lemma no_frame_without_payload w ss es csv b t df :
  fetched_rows w ss = [] -> process_data w ss es csv b <> (t, Ok df).
Proof.
  intros Hf H. apply process_data_frame in H.
  destruct H as [s [e [_ [_ [Hne _]]]]]. contradiction.
Qed.

(** With a missing file [process_data] never returns a frame. *)
Lemma no_frame_without_file w ss es p b t df :
  path_exists w p = false -> process_data w ss es (Some p) b <> (t, Ok df).
Proof.
  intros Hp. unfold process_data, load_existing_data, fetch_historical_data,
    bind, lift, emit, ret, raise. rewrite Hp. simpl negb. cbv iota.
  destruct (http_get w _) as [[[l|]|]|err]; try discriminate.
  destruct (convert_records _ l) as [os|err]; discriminate.
Qed.

(** ** Payload conversion *)

Lemma Qtrunc_inject_Z z : Qtrunc (inject_Z z) = z.
Proof. unfold Qtrunc. simpl. apply Z.quot_1_r. Qed.

Lemma py_int_value n z : py_int n = Ok z -> z = Qtrunc (number_value n).
Proof.
  destruct n as [i|q| |]; simpl; intros H; inversion H; subst.
  - symmetry. apply Qtrunc_inject_Z.
  - reflexivity.
Qed.

Lemma Qtrunc_floor_seconds q :
  (0 <= q)%Q -> Qtrunc q / 1000 = Qfloor (q / 1000).
Proof.
  destruct q as [n d]. unfold Qle, Qtrunc, Qfloor, Qdiv, Qmult, Qinv. simpl.
  intros Hn. rewrite Z.mul_1_r in Hn. rewrite Z.mul_1_r.
  rewrite Z.quot_div_nonneg by lia.
  rewrite Pos2Z.inj_mul. rewrite Z.div_div by lia. reflexivity.
Qed.

(** C7 (as specified) fails: the entry [x = 1704067200000], [y = 45.75]
    becomes the value 45, and [round 45.75] is 46. *)
Lemma payload_conversion_not_rounded : ~ payload_conversion_as_specified.
Proof.
  intros H.
  specialize (H utc {| x := JInt 1704067200000; y := JFloat (183 # 4) |}
                738886 45 eq_refl).
  destruct H as [_ H]. vm_compute in H. discriminate H.
Qed.

(** C7 (amended). Payload conversion: in a zone whose offset from UTC is
    less than a day, an entry whose [x] and [y] are finite numbers and
    whose local day, as that of 24 hours earlier, is a representable date
    becomes the Observation whose date is the local calendar day of second
    [floor (int x / 1000)] and whose value is [int y], that is [y] cut
    toward zero; [int x / 1000] floors to [floor (x / 1000)] whenever [x]
    is not negative. *)
Theorem payload_conversion tz r :
  (forall s, - 86400 < tz s < 86400) ->
  is_finite (x r) = true -> is_finite (y r) = true ->
  date_min <= local_date tz (Qtrunc (number_value (x r)) / 1000 - 86400) ->
  date_min <= local_date tz (Qtrunc (number_value (x r)) / 1000) <= date_max ->
  convert_record tz r =
    Ok (local_date tz (Qtrunc (number_value (x r)) / 1000),
        Qtrunc (number_value (y r))) /\
  ((0 <= number_value (x r))%Q ->
   Qtrunc (number_value (x r)) / 1000 = Qfloor (number_value (x r) / 1000)).
Proof.
  intros _ Hx Hy Hprobe Hd. split; [|apply Qtrunc_floor_seconds].
  unfold convert_record.
  destruct (py_int (x r)) as [ts|err] eqn:Ex;
    [|destruct (x r); simpl in Ex, Hx; congruence].
  apply py_int_value in Ex. subst ts.
  unfold fromtimestamp_date.
  destruct Hd as [H1 H2].
  apply Z.leb_le in H1. apply Z.leb_le in H2. apply Z.leb_le in Hprobe.
  rewrite H1, H2, Hprobe. simpl.
  destruct (py_int (y r)) as [v|err] eqn:Ey;
    [|destruct (y r); simpl in Ey, Hy; congruence].
  apply py_int_value in Ey. now subst v.
Qed.

Lemma payload_conversion_witness :
  convert_record utc {| x := JInt 1704067200000; y := JFloat (183 # 4) |} =
    Ok (local_date utc (Qtrunc (inject_Z 1704067200000) / 1000),
        Qtrunc (183 # 4)) /\
  ((0 <= inject_Z 1704067200000)%Q ->
   Qtrunc (inject_Z 1704067200000) / 1000 =
   Qfloor (inject_Z 1704067200000 / 1000)).
Proof.
  apply (payload_conversion utc
           {| x := JInt 1704067200000; y := JFloat (183 # 4) |}).
  - intros s. unfold utc. lia.
  - reflexivity.
  - reflexivity.
  - vm_compute. discriminate.
  - vm_compute. split; discriminate.
Defined.

(** The year of an ordinal is a year of the calendar exactly when the
    ordinal is a date. *)
Lemma _ord2year_range n :
  MINYEAR <= _ord2year n <= MAXYEAR <-> date_min <= n <= date_max.
Proof.
  unfold _ord2year, MINYEAR, MAXYEAR.
  change date_min with 1. change date_max with 3652059.
  destruct (Z.eqb_spec ((n - 1) mod 146097 mod 36524 mod 1461 / 365) 4);
    destruct (Z.eqb_spec ((n - 1) mod 146097 / 36524) 4); cbn [orb];
    Z.to_euclidean_division_equations; lia.
Qed.

Lemma fromtimestamp_errors :
  fromtimestamp_date utc 253402300800000 =
    Err (ValueError "year 10000 is out of range") /\
  fromtimestamp_date utc (10 ^ 21) =
    Err (OSError "[Errno 75] Value too large for defined data type") /\
  fromtimestamp_date utc (10 ^ 30) =
    Err (OverflowError "timestamp out of range for platform time_t").
Proof. repeat split; vm_compute; reflexivity. Qed.

(** At the first day of the calendar the conversion raises: the day itself
    is a date, the day before is not. *)
Lemma payload_conversion_at_date_min :
  convert_record utc {| x := JInt (-62135596800000); y := JInt 1 |} =
  Err (ValueError "year 0 is out of range").
Proof. reflexivity. Qed.

(** ** The command boundary *)

(** What [strptime] takes for a date in the format [%Y-%m-%d]: the month
    and the day may lack their leading zero; the calendar is checked. *)
Lemma strptime_examples :
  strptime "2024-01-05" = Some 738890 /\
  strptime "2024-1-5" = Some 738890 /\
  strptime "2024/01/05" = None /\
  strptime "05-01-2024" = None /\
  strptime "2024-02-30" = None /\
  strptime "2024-01-05 " = None.
Proof. repeat split; reflexivity. Qed.

(** *** Accepted dates are plain text *)

Lemma plain_cons c s : plain (String c s) = plain_char c && plain s.
Proof.
  unfold plain, plain_char. simpl.
  destruct (Nat.ltb (nat_of_ascii c) 128), (Ascii.eqb c "["), (is_ascii s),
    (no_bracket s); reflexivity.
Qed.

Lemma is_digit_plain c : is_digit c = true -> plain_char c = true.
Proof.
  unfold is_digit, plain_char. intros H.
  apply andb_true_iff in H. destruct H as [H1 H2].
  apply Z.leb_le in H1. apply Z.leb_le in H2.
  apply andb_true_iff. split.
  - apply Nat.ltb_lt. lia.
  - destruct (Ascii.eqb_spec c "[") as [->|]; [|reflexivity].
    simpl in H2. lia.
Qed.

Lemma parse_year_plain s y r :
  parse_year s = Some (y, r) -> plain r = true -> plain s = true.
Proof.
  unfold parse_year.
  destruct s as [|a [|b [|c [|d rest]]]]; try discriminate.
  destruct (is_digit a) eqn:Ha; [|discriminate].
  destruct (is_digit b) eqn:Hb; [|discriminate].
  destruct (is_digit c) eqn:Hc; [|discriminate].
  destruct (is_digit d) eqn:Hd; [|discriminate].
  simpl. intros H Hr. inversion H; subst.
  rewrite !plain_cons, Hr, !is_digit_plain by assumption. reflexivity.
Qed.

Lemma dash_match {T} (c : ascii) (A B : T) :
  match c with
  | "-"%char => A
  | _ => B
  end = if Ascii.eqb c "-" then A else B.
Proof. destruct c as [[] [] [] [] [] [] [] []]; reflexivity. Qed.

Lemma parse_month_plain s m r :
  parse_month s = Some (m, r) -> plain r = true -> plain s = true.
Proof.
  intros H Hr. unfold parse_month in H.
  destruct s as [|a [|b [|c s']]]; try discriminate.
  - rewrite dash_match in H.
    destruct (Ascii.eqb_spec b "-") as [->|Hb]; [|discriminate].
    destruct (is_digit a && (1 <=? digit_val a)) eqn:E; [|discriminate].
    inversion H; subst. apply andb_true_iff in E.
    rewrite !plain_cons, is_digit_plain by tauto. reflexivity.
  - rewrite !dash_match in H.
    destruct (Ascii.eqb_spec c "-") as [->|Hc].
    + destruct (is_digit a && is_digit b) eqn:E.
      * apply andb_true_iff in E. destruct E as [Ha Hb].
        cbv zeta in H.
        destruct ((1 <=? digit_val a * 10 + digit_val b)
                  && (digit_val a * 10 + digit_val b <=? 12)).
        -- inversion H; subst.
           rewrite !plain_cons, Hr, !is_digit_plain by assumption.
           reflexivity.
        -- destruct (Ascii.eqb_spec b "-") as [->|Hb']; [|discriminate].
           discriminate Hb.
      * destruct (Ascii.eqb_spec b "-") as [->|Hb']; [|discriminate].
        destruct (is_digit a && (1 <=? digit_val a)) eqn:E'; [|discriminate].
        inversion H; subst. apply andb_true_iff in E'.
        rewrite !plain_cons in *. rewrite is_digit_plain by tauto.
        exact Hr.
    + destruct (Ascii.eqb_spec b "-") as [->|Hb']; [|discriminate].
      destruct (is_digit a && (1 <=? digit_val a)) eqn:E'; [|discriminate].
      inversion H; subst. apply andb_true_iff in E'.
      rewrite !plain_cons in *. rewrite is_digit_plain by tauto.
      exact Hr.
Qed.

Lemma parse_day_plain s d : parse_day s = Some d -> plain s = true.
Proof.
  unfold parse_day.
  destruct s as [|a [|b [|c s']]]; try discriminate.
  - destruct (is_digit a && (1 <=? digit_val a)) eqn:E; [|discriminate].
    intros _. apply andb_true_iff in E.
    rewrite plain_cons, is_digit_plain by tauto. reflexivity.
  - destruct (is_digit a && is_digit b) eqn:E.
    + intros _. apply andb_true_iff in E.
      rewrite !plain_cons, !is_digit_plain by tauto. reflexivity.
    + destruct (Ascii.eqb_spec a " ") as [->|]; [|discriminate].
      simpl andb.
      destruct (is_digit b && (1 <=? digit_val b)) eqn:E'; [|discriminate].
      intros _. apply andb_true_iff in E'.
      rewrite !plain_cons, (is_digit_plain b) by tauto. reflexivity.
Qed.

(** A date that [strptime] takes is plain text: digits, dashes and at most
    one space. *)
Lemma strptime_plain s d : strptime s = Some d -> plain s = true.
Proof.
  unfold strptime.
  destruct (parse_year s) as [[y r]|] eqn:Ey; [|discriminate].
  destruct r as [|c s1]; [discriminate|].
  rewrite dash_match.
  destruct (Ascii.eqb_spec c "-") as [->|]; [|discriminate].
  destruct (parse_month s1) as [[m s2]|] eqn:Em; [|discriminate].
  destruct (parse_day s2) as [dd|] eqn:Ed; [|discriminate].
  intros _.
  apply (parse_year_plain _ _ _ Ey). rewrite plain_cons.
  rewrite (parse_month_plain _ _ _ Em (parse_day_plain _ _ Ed)).
  reflexivity.
Qed.

(** Inputs that fail validation: one message, exit status 1. *)
Lemma scrape_rejected w ss es csv out fmt b summary :
  existsb (String.eqb (lower fmt)) ["parquet"; "csv"]%string = false \/
  strptime ss = None \/ strptime es = None \/
  (exists s e, strptime ss = Some s /\ strptime es = Some e /\ s > e) ->
  exists msg, scrape w ss es csv out fmt b summary = ([Print msg], Err (Exit 1)).
Proof.
  intros H. unfold scrape, parse_date.
  destruct (existsb (String.eqb (lower fmt)) ["parquet"; "csv"]%string) eqn:Ef;
    [|eexists; reflexivity].
  simpl negb. cbv iota.
  destruct (strptime ss) as [s|]; [|eexists; reflexivity].
  destruct (strptime es) as [e|]; [|eexists; reflexivity].
  destruct H as [H|[H|[H|[s' [e' [Hs' [He' Hgt]]]]]]]; try discriminate.
  inversion Hs'; inversion He'; subst s' e'.
  assert (Hb : (s >? e) = true) by (apply Z.gtb_lt; lia).
  unfold bind, lift, ret, raise, emit, catch_ValueError. rewrite Hb.
  eexists. reflexivity.
Qed.




(** ** Which of two values for one date survives the merge *)

(** Either fill strategy leaves a non-null cell as it is. *)
Lemma fill_strategy_keeps b col :
  Forall2 (fun c c' => forall v, c = Some v -> c' = Some v)
          col (fill_strategy b col).
Proof.
  destruct b; simpl.
  - induction col as [|c col IH]; simpl; [constructor|].
    destruct c; constructor; auto; discriminate.
  - unfold fill_null. induction col as [|c col IH]; simpl; constructor; auto.
    destruct c; [auto|discriminate].
Qed.

Lemma set_column_1_In col rs r :
  Forall2 (fun c c' => forall v, c = Some v -> c' = Some v)
          (get_column 1 rs) col ->
  In r (set_column 1 col rs) ->
  exists r0, In r0 rs /\ cell_at 0 r = cell_at 0 r0 /\
             (forall v, cell_at 1 r0 = Some v -> cell_at 1 r = Some v).
Proof.
  revert col. induction rs as [|r1 rs IH]; intros col HF Hin.
  - destruct col; destruct Hin.
  - simpl in HF. inversion HF as [|c c' l l' Hc HF']; subst.
    simpl in Hin. destruct Hin as [<-|Hin].
    + exists r1. split; [now left|]. split; [apply replace_nth_1_key|].
      intros v Hv. specialize (Hc v Hv). subst c'.
      destruct r1 as [|a [|b' r1]]; try discriminate Hv. reflexivity.
    + destruct (IH l' HF' Hin) as [r0 [H0 H1]].
      exists r0. split; [now right|exact H1].
Qed.

Lemma unique_file_value (ex : list (cell * cell)) (d : Z) (a b : cell) :
  NoDup (non_null (map fst ex)) ->
  In (Some d, a) ex -> In (Some d, b) ex -> a = b.
Proof.
  induction ex as [|[c v] ex IH]; intros Hnd Ha Hb; [destruct Ha|].
  simpl in Hnd. destruct c as [d'|].
  - simpl in Hnd. apply NoDup_cons_iff in Hnd. destruct Hnd as [Hnot Hnd].
    assert (Hin : forall u, In (Some d', u) ex -> False).
    { intros u Hu. apply Hnot. apply in_non_null.
      apply in_map_iff. now exists (Some d', u). }
    destruct Ha as [Ha|Ha], Hb as [Hb|Hb].
    + congruence.
    + inversion Ha; subst. exfalso. eapply Hin; eauto.
    + inversion Hb; subst. exfalso. eapply Hin; eauto.
    + now apply IH.
  - simpl in Hnd. destruct Ha as [Ha|Ha]; [discriminate|].
    destruct Hb as [Hb|Hb]; [discriminate|]. now apply IH.
Qed.

(** A row of the merged frame dated [d], when the file has a row for [d],
    carries the file's value in column 1. *)
Lemma combined_rows_file_value ex api d v1 rr :
  NoDup (non_null (map fst ex)) -> In (Some d, v1) ex ->
  In rr (combined_rows ex api) -> cell_at 0 rr = Some d ->
  cell_at 1 rr = v1.
Proof.
  intros Hnd Hin Hrr Hk. unfold combined_rows in Hrr.
  destruct ex as [|x ex]; [destruct Hin|]. set (E := x :: ex) in *.
  apply in_app_or in Hrr. destruct Hrr as [Hrr|Hrr].
  - unfold left_join_rows in Hrr. apply in_flat_map in Hrr.
    destruct Hrr as [lr [Hlr Hrr]].
    unfold file_rows in Hlr. apply in_map_iff in Hlr.
    destruct Hlr as [[c v] [<- Hcv]].
    assert (Hshape : cell_at 0 rr = c /\ cell_at 1 rr = v).
    { destruct (matches 0 0 _ _) as [|m ms].
      - destruct Hrr as [<-|[]]. split; reflexivity.
      - apply in_map_iff in Hrr. destruct Hrr as [r' [<- _]]. split; reflexivity. }
    destruct Hshape as [H0 H1]. rewrite Hk in H0. subst c. rewrite H1.
    eapply unique_file_value; eauto.
  - exfalso. unfold unmatched_right_rows in Hrr. apply in_map_iff in Hrr.
    destruct Hrr as [r' [<- Hr']]. apply filter_In in Hr'.
    destruct Hr' as [Hr' Hun].
    unfold api_rows in Hr'. apply in_map_iff in Hr'.
    destruct Hr' as [[d' v'] [<- _]].
    change (Some d' = Some d) in Hk. inversion Hk; subst d'.
    change (unmatched_date E d = true) in Hun.
    rewrite unmatched_date_false in Hun; [discriminate|].
    apply in_map_iff. now exists (Some d, v1).
Qed.

(** The value that [process_data] returns for a date present in the file is
    the file's, whatever the payload holds for that date. *)
Theorem existing_value_wins w ss es csv b t df s e d v1 :
  process_data w ss es csv b = (t, Ok df) ->
  strptime ss = Some s -> strptime es = Some e -> s <= d <= e ->
  NoDup (non_null (map fst (existing_rows w csv))) ->
  In (Some d, Some v1) (existing_rows w csv) ->
  values_on df d <> [] /\ forall c, In c (values_on df d) -> c = Some v1.
Proof.
  intros H Hs He Hd Hnd Hin. apply process_data_frame in H.
  destruct H as [s' [e' [Hs' [He' [_ ->]]]]].
  rewrite Hs in Hs'. rewrite He in He'. inversion Hs'. inversion He'. subst s' e'.
  set (ex := existing_rows w csv) in *. set (api := fetched_rows w ss) in *.
  rewrite values_on_result.
  assert (Hval : forall r, In r (filled_rows b (joined_rows ex api s e)) ->
                 cell_at 0 r = Some d -> cell_at 1 r = Some v1).
  { intros r Hr Hk. unfold filled_rows in Hr.
    apply set_column_1_In in Hr; [|apply fill_strategy_keeps].
    destruct Hr as [r0 [Hr0 [Hk0 Hv0]]]. apply Hv0.
    rewrite Hk in Hk0. apply joined_rows_In in Hr0.
    destruct Hr0 as [d' [_ Hr0]].
    pose proof (day_rows_key _ _ _ _ Hr0) as Hk'.
    rewrite <- Hk0 in Hk'. inversion Hk'; subst d'.
    unfold day_rows in Hr0.
    destruct (matches 0 0 [Some d] (combined_rows ex api)) as [|m ms] eqn:Em.
    - exfalso.
      assert (Hex : exists rr, In rr (combined_rows ex api) /\ cell_at 0 rr = Some d).
      { unfold combined_rows. destruct ex as [|x ex0] eqn:Eex; [destruct Hin|].
        rewrite <- Eex in *.
        assert (Hlr : In [Some d; Some v1] (file_rows ex)).
        { unfold file_rows. apply in_map_iff. now exists (Some d, Some v1). }
        unfold left_join_rows.
        destruct (matches 0 0 [Some d; Some v1] (api_rows api)) as [|m1 ms1] eqn:E1.
        - exists ([Some d; Some v1] ++ repeat None 1). split; [|reflexivity].
          apply in_or_app. left. apply in_flat_map.
          exists [Some d; Some v1]. split; [exact Hlr|]. rewrite E1. now left.
        - exists ([Some d; Some v1] ++ remove_nth 0 m1). split; [|reflexivity].
          apply in_or_app. left. apply in_flat_map.
          exists [Some d; Some v1]. split; [exact Hlr|]. rewrite E1.
          apply in_map_iff. exists m1. split; [reflexivity|now left]. }
      destruct Hex as [rr [Hrr Hkr]].
      assert (Hm : In rr (matches 0 0 [Some d] (combined_rows ex api))).
      { unfold matches. apply filter_In. split; [exact Hrr|].
        rewrite Hkr. simpl. apply Z.eqb_refl. }
      rewrite Em in Hm. destruct Hm.
    - apply in_map_iff in Hr0. destruct Hr0 as [rr [<- Hrr]].
      rewrite <- Em in Hrr. unfold matches in Hrr. apply filter_In in Hrr.
      destruct Hrr as [Hrr Hkm].
      assert (Hkr : cell_at 0 rr = Some d).
      { destruct (cell_at 0 rr) as [u|]; [|discriminate Hkm].
        simpl in Hkm. apply Z.eqb_eq in Hkm. now subst u. }
      pose proof (combined_rows_file_value ex api d (Some v1) rr Hnd Hin Hrr Hkr)
        as Hv.
      destruct rr as [|a0 [|a1 rr]]; try discriminate Hv. exact Hv. }
  split.
  - intros Hnil.
    assert (Hday : exists r, In r (joined_rows ex api s e) /\ cell_at 0 r = Some d).
    { destruct (day_rows (combined_width ex) (combined_rows ex api) d)
        as [|r0 rest] eqn:Ed; [now apply day_rows_nonempty in Ed|].
      exists r0. split.
      - apply joined_rows_In. exists d. split; [exact Hd|]. rewrite Ed. now left.
      - apply (day_rows_key (combined_width ex) (combined_rows ex api)).
        rewrite Ed. now left. }
    destruct Hday as [r0 [Hr0 Hk0]].
    assert (Hk : In (Some d) (get_column 0 (filled_rows b (joined_rows ex api s e)))).
    { rewrite filled_rows_keys. rewrite <- Hk0. unfold get_column.
      now apply in_map. }
    unfold get_column in Hk. apply in_map_iff in Hk.
    destruct Hk as [r [Hkr Hr]].
    assert (Hf : In r (filter (fun r => key_match (cell_at 0 r) (Some d))
                         (filled_rows b (joined_rows ex api s e)))).
    { apply filter_In. split; [exact Hr|]. rewrite Hkr. simpl. apply Z.eqb_refl. }
    apply (in_map (cell_at 1)) in Hf. rewrite Hnil in Hf. destruct Hf.
  - intros c Hc. apply in_map_iff in Hc. destruct Hc as [r [<- Hr]].
    apply filter_In in Hr. destruct Hr as [Hr Hk]. apply Hval; [exact Hr|].
    destruct (cell_at 0 r) as [u|]; [|discriminate Hk].
    simpl in Hk. apply Z.eqb_eq in Hk. now subst u.
Qed.

(** [process_data] returns a frame as soon as the dates parse, the file (if
    one is named) can be read and the payload converts to at least one
    observation. *)
Lemma process_data_total w ss es csv b s e l o os :
  strptime ss = Some s -> strptime es = Some e ->
  (csv = None \/
   exists p rs, csv = Some p /\ path_exists w p = true /\ read_csv w p = Ok rs) ->
  http_get w (BASE_URL ++ ss)%string = Ok (Some (Some l)) ->
  convert_records (utcoffset w) l = Ok (o :: os) ->
  exists t df, process_data w ss es csv b = (t, Ok df).
Proof.
  intros Hs He Hcsv Hget Hconv.
  unfold process_data, load_existing_data, fetch_historical_data,
    bind, lift, emit, ret, raise.
  destruct Hcsv as [->|[p [rs [-> [Hp Hr]]]]].
  - rewrite Hget, Hconv. change empty_frame with (existing_frame []).
    rewrite (merge_and_fill_eq [] (o :: os) ss es b s e Hs He) by discriminate.
    eexists. eexists. reflexivity.
  - rewrite Hp. simpl negb. cbv iota. rewrite Hr, Hget, Hconv.
    rewrite (merge_and_fill_eq rs (o :: os) ss es b s e Hs He) by discriminate.
    eexists. eexists. reflexivity.
Qed.

(** ** Backward fill when nothing comes from a file *)


Lemma observed_Some api d v :
  NoDup (map fst api) -> In (d, v) api -> observed api d = Some v.
Proof.
  unfold observed. induction api as [|[d' v'] api IH]; intros Hnd Hin;
    [destruct Hin|].
  simpl in Hnd. apply NoDup_cons_iff in Hnd. destruct Hnd as [Hnot Hnd].
  simpl. destruct (Z.eqb_spec d' d) as [->|Hne].
  - destruct Hin as [Hin|Hin]; [now inversion Hin|].
    exfalso. apply Hnot. apply in_map_iff. now exists (d, v).
  - destruct Hin as [Hin|Hin]; [inversion Hin; congruence|]. now apply IH.
Qed.

Lemma matches_api_rows api d :
  matches 0 0 [Some d] (api_rows api) =
  api_rows (filter (fun r => d =? fst r) api).
Proof.
  unfold matches, api_rows.
  induction api as [|[d' v'] api IH]; [reflexivity|].
  cbn [map filter fst snd]. change (cell_at 0 [Some d]) with (Some d) in *.
  change (key_match (Some d) (cell_at 0 [Some d'; Some v'])) with (d =? d').
  destruct (d =? d'); cbn [map fst snd]; now rewrite IH.
Qed.

Lemma day_rows_api api d :
  NoDup (map fst api) ->
  day_rows 1 (api_rows api) d = [[Some d; observed api d]].
Proof.
  intros Hnd. unfold day_rows. rewrite matches_api_rows. unfold observed.
  induction api as [|[d' v'] api IH]; [reflexivity|].
  simpl in Hnd. apply NoDup_cons_iff in Hnd. destruct Hnd as [Hnot Hnd].
  cbn [filter find fst snd]. rewrite (Z.eqb_sym d' d).
  destruct (Z.eqb_spec d d') as [->|Hne].
  - rewrite filter_none; [reflexivity|].
    intros [d2 v2] Hin. cbn [fst]. apply Z.eqb_neq. intros E. subst d2.
    apply Hnot. apply in_map_iff. now exists (d', v2).
  - now apply IH.
Qed.

Lemma set_column_backfilled (f : Z -> cell) ds :
  set_column 1 (fill_null_backward (map f ds))
    (map (fun d => [Some d; f d]) ds) = backfilled_days f ds.
Proof.
  assert (Hhd : forall l, hd None (fill_null_backward l) = first_some l).
  { induction l as [|c l IH]; [reflexivity|]. simpl. destruct c; [reflexivity|exact IH]. }
  induction ds as [|d ds IH]; [reflexivity|].
  cbn [map fill_null_backward backfilled_days first_some].
  destruct (f d) as [u|]; cbn [set_column replace_nth]; rewrite IH.
  - reflexivity.
  - now rewrite Hhd.
Qed.

Lemma backfilled_days_key f ds r :
  In r (backfilled_days f ds) -> exists d, In d ds /\ cell_at 0 r = Some d.
Proof.
  induction ds as [|d ds IH]; [intros []|].
  intros [<-|H].
  - exists d. split; [now left|reflexivity].
  - destruct (IH H) as [d' [Hd' Hk]]. exists d'. split; [now right|exact Hk].
Qed.

Lemma backfilled_days_at f pre d post :
  NoDup (pre ++ d :: post) ->
  map (cell_at 1)
    (filter (fun r => key_match (cell_at 0 r) (Some d))
            (backfilled_days f (pre ++ d :: post))) =
  [first_some (map f (d :: post))].
Proof.
  induction pre as [|p pre IH]; intros Hnd.
  - simpl app in *. apply NoDup_cons_iff in Hnd. destruct Hnd as [Hnot _].
    cbn [backfilled_days filter].
    change (key_match (cell_at 0 [Some d; first_some (map f (d :: post))]) (Some d))
      with (d =? d).
    rewrite Z.eqb_refl. rewrite filter_none; [reflexivity|].
    intros r Hr. apply backfilled_days_key in Hr. destruct Hr as [d' [Hd' ->]].
    simpl. apply Z.eqb_neq. intros ->. contradiction.
  - simpl app in *. apply NoDup_cons_iff in Hnd. destruct Hnd as [Hnot Hnd].
    cbn [backfilled_days filter].
    change (key_match (cell_at 0 [Some p; first_some (map f (p :: pre ++ d :: post))])
                      (Some d)) with (p =? d).
    destruct (Z.eqb_spec p d) as [->|Hne]; [|now apply IH].
    exfalso. apply Hnot. apply in_or_app. right. now left.
Qed.


Lemma date_range_split s e d :
  s <= d <= e ->
  date_range s e = date_range s (d - 1) ++ d :: date_range (d + 1) e.
Proof.
  intros H. unfold date_range.
  replace (Z.to_nat (e - s + 1))
    with (Z.to_nat (d - 1 - s + 1) + S (Z.to_nat (e - (d + 1) + 1)))%nat by lia.
  rewrite seq_app, map_app. f_equal. simpl seq. cbn [map].
  f_equal; [lia|].
  rewrite <- seq_shift, map_map.
  set (k := Z.to_nat (d - 1 - s + 1)).
  replace (0 + k)%nat with k by lia.
  assert (Hgen : forall n a,
    map (fun i => s + Z.of_nat (S i)) (seq (k + a) n) =
    map (fun i => d + 1 + Z.of_nat i) (seq a n)).
  { induction n as [|n IHn]; intros a; [reflexivity|].
    simpl. f_equal; [lia|].
    replace (S (k + a)) with (k + S a)%nat by lia. apply IHn. }
  specialize (Hgen (Z.to_nat (e - (d + 1) + 1)) 0%nat).
  replace (k + 0)%nat with k in Hgen by lia. exact Hgen.
Qed.


(** ** Traces and outcomes of composed computations *)

Lemma snd_bind {A B} (m : M A) (k : A -> M B) :
  snd (bind m k) = match snd m with Ok a => snd (k a) | Err e => Err e end.
Proof.
  destruct m as [t [a|e]]; simpl; [|reflexivity].
  destruct (k a); reflexivity.
Qed.

Lemma fst_bind {A B} (m : M A) (k : A -> M B) :
  fst (bind m k) =
  fst m ++ match snd m with Ok a => fst (k a) | Err _ => [] end.
Proof.
  destruct m as [t [a|e]]; simpl; [|now rewrite app_nil_r].
  destruct (k a); reflexivity.
Qed.

Lemma snd_catch {A} (m : M A) (h : exn -> M A) :
  snd (catch m h) = match snd m with Ok a => Ok a | Err e => snd (h e) end.
Proof.
  destruct m as [t [a|e]]; simpl; [reflexivity|].
  destruct (h e); reflexivity.
Qed.

Lemma fst_catch {A} (m : M A) (h : exn -> M A) :
  fst (catch m h) =
  fst m ++ match snd m with Ok _ => [] | Err e => fst (h e) end.
Proof.
  destruct m as [t [a|e]]; simpl; [now rewrite app_nil_r|].
  destruct (h e); reflexivity.
Qed.

(** ** What [process_data] does to the world *)

Lemma process_data_trace w ss es csv b :
  fst (process_data w ss es csv b) = [HttpGet (BASE_URL ++ ss)] /\ csv = None
  \/ (exists p, csv = Some p /\ path_exists w p = false /\
        fst (process_data w ss es csv b) =
        [Print ("[yellow]Warning: " ++ path_str p ++ " not found[/yellow]");
         HttpGet (BASE_URL ++ ss)])
  \/ (exists p rs, csv = Some p /\ path_exists w p = true /\
        read_csv w p = Ok rs /\
        fst (process_data w ss es csv b) =
        [ReadCsv (path_str p); HttpGet (BASE_URL ++ ss)])
  \/ (exists p e, csv = Some p /\ path_exists w p = true /\
        read_csv w p = Err e /\
        process_data w ss es csv b = ([ReadCsv (path_str p)], Err e)).
Proof.
  unfold process_data, load_existing_data, fetch_historical_data,
    bind, lift, emit, ret, raise.
  destruct csv as [p|].
  - right. destruct (path_exists w p) eqn:Hp; simpl negb; cbv iota.
    + right. destruct (read_csv w p) as [rs|e] eqn:Hr.
      * left. exists p, rs. repeat split; try assumption.
        destruct (http_get w _) as [[[l|]|]|e]; try reflexivity.
        destruct (convert_records _ l); reflexivity.
      * right. exists p, e. repeat split; assumption.
    + left. exists p. repeat split; try assumption.
      destruct (http_get w _) as [[[l|]|]|e]; try reflexivity.
      destruct (convert_records _ l); reflexivity.
  - left. split; [|reflexivity].
    destruct (http_get w _) as [[[l|]|]|e]; try reflexivity.
    destruct (convert_records _ l); reflexivity.
Qed.

(** [process_data] never writes; it sends one request, for the start date,
    unless reading the named file has already failed. (The path of the file
    is free of markup, so that the warning for a missing file is
    printed.) *)
Theorem process_data_effects w ss es csv b :
  (forall p, csv = Some p -> no_bracket (path_str p) = true) ->
  filter is_write (fst (process_data w ss es csv b)) = [] /\
  (filter is_request (fst (process_data w ss es csv b)) =
     [HttpGet (BASE_URL ++ ss)]
   \/ (filter is_request (fst (process_data w ss es csv b)) = [] /\
       exists p e, csv = Some p /\ path_exists w p = true /\
                   read_csv w p = Err e /\
                   snd (process_data w ss es csv b) = Err e)).
Proof.
  intros _.
  destruct (process_data_trace w ss es csv b)
    as [[H _]|[[p [_ [_ H]]]|[[p [rs [_ [_ [_ H]]]]]|[p [e [Hc [Hp [Hr H]]]]]]]].
  - rewrite H. split; [reflexivity|now left].
  - rewrite H. split; [reflexivity|now left].
  - rewrite H. split; [reflexivity|now left].
  - rewrite H. split; [reflexivity|]. right. split; [reflexivity|].
    exists p, e. auto.
Qed.

Lemma process_data_effects_witness :
  filter is_write
    (fst (process_data missing_file_world "2024-01-01" "2024-01-03"
            (Some old_csv) false)) = [] /\
  (filter is_request
     (fst (process_data missing_file_world "2024-01-01" "2024-01-03"
             (Some old_csv) false)) = [HttpGet (BASE_URL ++ "2024-01-01")]
   \/ (filter is_request
         (fst (process_data missing_file_world "2024-01-01" "2024-01-03"
                 (Some old_csv) false)) = [] /\
       exists p e, Some old_csv = Some p /\
                   path_exists missing_file_world p = true /\
                   read_csv missing_file_world p = Err e /\
                   snd (process_data missing_file_world "2024-01-01"
                          "2024-01-03" (Some old_csv) false) = Err e)).
Proof.
  apply process_data_effects.
  intros p Hp. inversion Hp. reflexivity.
Defined.



(** ** The conversion loop *)

(** The payload is converted entry by entry, in order: the loop returns a
    list exactly when every entry converts, and then the records are the
    conversions of the entries, one for one. *)
Theorem convert_records_pointwise tz l os :
  convert_records tz l = Ok os <->
  Forall2 (fun r o => convert_record tz r = Ok o) l os.
Proof.
  revert os. induction l as [|r l IH]; intros os; simpl.
  - split.
    + intros H. inversion H. constructor.
    + intros H. inversion H. reflexivity.
  - destruct (convert_record tz r) as [o|e] eqn:Er.
    + destruct (convert_records tz l) as [os'|e] eqn:El.
      * split.
        -- intros H. inversion H; subst. constructor; [exact Er|].
           now apply IH.
        -- intros H. inversion H as [|r' o' l' os'' Ho Hrest]; subst.
           rewrite Er in Ho. inversion Ho; subst.
           apply IH in Hrest. now inversion Hrest.
      * split; [discriminate|].
        intros H. inversion H as [|r' o' l' os'' Ho Hrest]; subst.
        apply IH in Hrest. discriminate Hrest.
    + split; [discriminate|].
      intros H. inversion H as [|r' o' l' os'' Ho Hrest]; subst.
      rewrite Er in Ho. discriminate Ho.
Qed.

(** One entry that does not convert aborts the whole loop, with the error
    of the first such entry. *)
Theorem convert_records_first_error tz l1 r l2 os e :
  convert_records tz l1 = Ok os -> convert_record tz r = Err e ->
  convert_records tz (l1 ++ r :: l2) = Err e.
Proof.
  revert os. induction l1 as [|r1 l1 IH]; intros os H1 Hr; simpl.
  - now rewrite Hr.
  - simpl in H1. destruct (convert_record tz r1) as [o|e1]; [|discriminate].
    destruct (convert_records tz l1) as [os1|e1] eqn:E1; [|discriminate].
    now rewrite (IH os1 eq_refl Hr).
Qed.

Lemma convert_records_first_error_witness :
  convert_records utc
    ([{| x := JInt 1704067200000; y := JInt 20 |}]
     ++ {| x := JInt 1704153600000; y := JNaN |}
        :: [{| x := JInt 1704240000000; y := JInt 30 |}]) =
  Err (ValueError "cannot convert float NaN to integer").
Proof.
  apply (convert_records_first_error utc _ _ _ [(738886, 20)]); reflexivity.
Defined.

(** [fromtimestamp] is local time: a timestamp at midnight UTC falls on
    that UTC day in a zone at or east of Greenwich, and on the day before
    in a zone west of it (for days from the third of the calendar on, so
    that the local day and the one before it are dates). *)
Theorem midnight_utc_in_local_time n o :
  0 <= o < 86400 ->
  date_min <= epoch + n - 2 -> epoch + n <= date_max ->
  fromtimestamp_date (fun _ => o) (n * 86400000) = Ok (epoch + n) /\
  (0 < o ->
   fromtimestamp_date (fun _ => - o) (n * 86400000) = Ok (epoch + n - 1)).
Proof.
  intros Ho Hlo Hhi.
  assert (Hs : n * 86400000 / 1000 = n * 86400).
  { replace (n * 86400000) with (n * 86400 * 1000) by lia.
    apply Z.div_mul. lia. }
  unfold fromtimestamp_date, local_date. rewrite Hs. split.
  - replace ((n * 86400 + o) / 86400) with n
      by (apply Z.div_unique with (r := o); lia).
    replace ((n * 86400 - 86400 + o) / 86400) with (n - 1)
      by (apply Z.div_unique with (r := o); lia).
    replace (n + epoch) with (epoch + n) by lia.
    destruct (Z.leb_spec date_min (epoch + n)); [|lia].
    destruct (Z.leb_spec (epoch + n) date_max); [|lia].
    destruct (Z.leb_spec date_min (n - 1 + epoch)); [reflexivity|lia].
  - intros Hpos.
    replace ((n * 86400 + - o) / 86400) with (n - 1)
      by (apply Z.div_unique with (r := 86400 - o); lia).
    replace ((n * 86400 - 86400 + - o) / 86400) with (n - 2)
      by (apply Z.div_unique with (r := 86400 - o); lia).
    replace (n - 1 + epoch) with (epoch + n - 1) by lia.
    destruct (Z.leb_spec date_min (epoch + n - 1)); [|lia].
    destruct (Z.leb_spec (epoch + n - 1) date_max); [|lia].
    destruct (Z.leb_spec date_min (n - 2 + epoch)); [reflexivity|lia].
Qed.

Lemma midnight_utc_in_local_time_witness :
  fromtimestamp_date (fun _ => 3600) (19723 * 86400000) = Ok (epoch + 19723) /\
  (0 < 3600 ->
   fromtimestamp_date (fun _ => - 3600) (19723 * 86400000) =
   Ok (epoch + 19723 - 1)).
Proof.
  apply midnight_utc_in_local_time.
  - lia.
  - vm_compute. discriminate.
  - vm_compute. discriminate.
Defined.

(** A score between 0 and 100 stays between 0 and 100: [int] takes a
    non-negative [y] to its floor. *)
Theorem score_range_preserved tz r d v :
  convert_record tz r = Ok (d, v) ->
  (0 <= number_value (y r))%Q -> (number_value (y r) <= 100)%Q ->
  v = Qfloor (number_value (y r)) /\ 0 <= v <= 100.
Proof.
  intros H H0 H100. unfold convert_record in H.
  destruct (py_int (x r)) as [ts|]; [|discriminate].
  destruct (fromtimestamp_date tz ts) as [d'|]; [|discriminate].
  destruct (py_int (y r)) as [v'|] eqn:Ey; [|discriminate].
  inversion H; subst d' v'. apply py_int_value in Ey.
  assert (Hfl : v = Qfloor (number_value (y r))).
  { rewrite Ey. destruct (number_value (y r)) as [n dn].
    unfold Qtrunc, Qfloor. simpl. unfold Qle in H0. simpl in H0.
    apply Z.quot_div_nonneg; lia. }
  split; [exact Hfl|]. rewrite Hfl. split.
  - change 0 with (Qfloor (inject_Z 0)). apply Qfloor_resp_le. exact H0.
  - change 100 with (Qfloor (inject_Z 100)). apply Qfloor_resp_le. exact H100.
Qed.

Lemma score_range_preserved_witness :
  45 = Qfloor (183 # 4) /\ 0 <= 45 <= 100.
Proof.
  apply (score_range_preserved utc
           {| x := JInt 1704067200000; y := JFloat (183 # 4) |} 738886 45).
  - reflexivity.
  - discriminate.
  - discriminate.
Defined.

(** ** [save_data] *)



(** ** [scrape] from validation to exit *)

Lemma string_length_app (s t : string) :
  String.length (s ++ t) = (String.length s + String.length t)%nat.
Proof. induction s as [|c s IH]; simpl; [reflexivity|now rewrite IH]. Qed.

(** A path with a suffix of two characters or more has a name. *)
Lemma has_name_of_suffix p :
  (2 < String.length (suffix p))%nat -> has_name p = true.
Proof.
  intros H. unfold has_name.
  assert (L : (2 < String.length (path_str p))%nat).
  { unfold path_str. rewrite string_length_app. lia. }
  destruct (existsb (String.eqb (path_str p)) [""; "."; "/"; "//"]%string)
    eqn:E; [|reflexivity].
  apply existsb_exists in E. destruct E as [t [Hin Heq]].
  apply String.eqb_eq in Heq. rewrite Heq in L.
  simpl in Hin. destruct Hin as [<-|[<-|[<-|[<-|[]]]]]; simpl in L; lia.
Qed.

Lemma normalized_output_name fmt out :
  existsb (String.eqb (lower fmt)) ["parquet"; "csv"]%string = true ->
  has_name out = true ->
  normalized_output fmt out =
  ([], Ok {| stem := stem out; suffix := ("." ++ lower fmt)%string |}).
Proof.
  unfold normalized_output, with_suffix, lift, ret. simpl existsb.
  intros Hf Hn. rewrite Hn.
  destruct (String.eqb_spec (lower fmt) "parquet") as [->|Hp].
  - simpl.
    destruct (String.eqb_spec (suffix out) ".parquet") as [E|E]; simpl;
      [|reflexivity].
    destruct out as [st sf]. simpl in *. now subst sf.
  - simpl in Hf. destruct (String.eqb_spec (lower fmt) "csv") as [->|Hc];
      [|discriminate].
    simpl.
    destruct (String.eqb_spec (suffix out) ".csv") as [E|E]; simpl;
      [|reflexivity].
    destruct out as [st sf]. simpl in *. now subst sf.
Qed.

(** The current directory or the root as output: [with_suffix] raises. *)
Lemma normalized_output_nameless fmt out :
  existsb (String.eqb (lower fmt)) ["parquet"; "csv"]%string = true ->
  has_name out = false ->
  exists msg, normalized_output fmt out = ([], Err (ValueError msg)).
Proof.
  unfold normalized_output, with_suffix, lift, ret. simpl existsb.
  intros Hf Hn. rewrite Hn.
  assert (Hp : String.eqb (suffix out) ".parquet" = false).
  { destruct (String.eqb_spec (suffix out) ".parquet") as [E|E];
      [|reflexivity].
    rewrite has_name_of_suffix in Hn; [discriminate|]. rewrite E. simpl. lia. }
  assert (Hc : String.eqb (suffix out) ".csv" = false).
  { destruct (String.eqb_spec (suffix out) ".csv") as [E|E];
      [|reflexivity].
    rewrite has_name_of_suffix in Hn; [discriminate|]. rewrite E. simpl. lia. }
  rewrite Hp, Hc. simpl negb. rewrite !andb_true_r.
  destruct (String.eqb (lower fmt) "parquet"); [eexists; reflexivity|].
  destruct (String.eqb (lower fmt) "csv"); [eexists; reflexivity|].
  discriminate Hf.
Qed.

Lemma validation_cases ss es fmt :
  (existsb (String.eqb (lower fmt)) ["parquet"; "csv"]%string = true /\
   exists s e, strptime ss = Some s /\ strptime es = Some e /\ s <= e)
  \/ (existsb (String.eqb (lower fmt)) ["parquet"; "csv"]%string = false \/
      strptime ss = None \/ strptime es = None \/
      (exists s e, strptime ss = Some s /\ strptime es = Some e /\ s > e)).
Proof.
  destruct (existsb _ _); [|right; now left].
  destruct (strptime ss) as [s|]; [|right; right; now left].
  destruct (strptime es) as [e|]; [|right; right; right; now left].
  destruct (Z_le_gt_dec s e).
  - left. split; [reflexivity|]. now exists s, e.
  - right. right. right. right. now exists s, e.
Qed.

(** Valid inputs and an output path with a name: the banner, then the
    trace of [process_data], then the write, the messages and the exit
    that its result leads to. *)
Lemma scrape_valid_run w ss es csv out fmt b summary s e t r :
  existsb (String.eqb (lower fmt)) ["parquet"; "csv"]%string = true ->
  has_name out = true ->
  strptime ss = Some s -> strptime es = Some e -> s <= e ->
  process_data w ss es csv b = (t, r) ->
  exists pre,
    forallb is_print pre = true /\
    match r with
    | Err e0 =>
        scrape w ss es csv out fmt b summary =
        (pre ++ t ++ [error_line e0], Err (Exit 1))
    | Ok df =>
        match write_file w {| stem := stem out; suffix := "." ++ lower fmt |}
        with
        | Err e1 =>
            scrape w ss es csv out fmt b summary =
            (pre ++ t
             ++ [write_event fmt
                   {| stem := stem out; suffix := "." ++ lower fmt |} df;
                 error_line e1], Err (Exit 1))
        | Ok _ =>
            exists saved done,
            scrape w ss es csv out fmt b summary =
            (pre ++ t
             ++ [write_event fmt
                   {| stem := stem out; suffix := "." ++ lower fmt |} df;
                 Print saved]
             ++ (if summary then [Print EmptyString; PrintSummary df] else [])
             ++ [Print done], Ok tt)
        end
    end.
Proof.
  intros Hf Hn Hs He Hle Hpd. unfold scrape, parse_date. rewrite Hf, Hs, He.
  assert (Hb : (s >? e) = false) by (rewrite Z.gtb_ltb; apply Z.ltb_ge; lia).
  fold (normalized_output fmt out).
  rewrite (normalized_output_name fmt out Hf Hn).
  unfold catch_ValueError, catch, bind, lift, ret, raise, emit. rewrite Hb, Hpd.
  cbv iota beta. simpl negb. cbv iota.
  unfold save_data, display_summary, write_event, error_line,
    bind, lift, ret, raise, emit.
  simpl existsb in Hf.
  destruct csv as [p|];
    [exists [Print "[bold blue]Fear and Greed Index Scraper[/bold blue]";
             Print ("Date range: " ++ ss ++ " to " ++ es)%string;
             Print ("Input CSV: " ++ path_str p)%string;
             Print ("Output: "
                     ++ path_str
                          {| stem := stem out; suffix := "." ++ lower fmt |}
                     ++ " (" ++ upper fmt ++ ")")%string;
             Print ("Backfill: "
                     ++ (if b then "Enabled" else "Disabled"))%string;
             Print EmptyString]
    |exists [Print "[bold blue]Fear and Greed Index Scraper[/bold blue]";
             Print ("Date range: " ++ ss ++ " to " ++ es)%string;
             Print ("Output: "
                     ++ path_str
                          {| stem := stem out; suffix := "." ++ lower fmt |}
                     ++ " (" ++ upper fmt ++ ")")%string;
             Print ("Backfill: "
                     ++ (if b then "Enabled" else "Disabled"))%string;
             Print EmptyString]];
    (split; [reflexivity|]).
  all: destruct r as [df|e0]; [|cbn [app]; rewrite ?app_nil_r; reflexivity].
  all: destruct (write_file w {| stem := stem out; suffix := "." ++ lower fmt |})
    as [[]|e1].
  all: destruct (String.eqb (lower fmt) "parquet");
    [|destruct (String.eqb (lower fmt) "csv"); [|discriminate Hf]].
  all: try (cbn [app]; rewrite <- ?app_assoc; reflexivity).
  all: destruct summary; eexists; eexists; cbn [app]; rewrite <- ?app_assoc;
    reflexivity.
Qed.

(** Valid inputs and an output path without a name: the [ValueError] of
    [with_suffix] leaves [scrape] before the banner. *)
Lemma scrape_nameless w ss es csv out fmt b summary s e :
  existsb (String.eqb (lower fmt)) ["parquet"; "csv"]%string = true ->
  has_name out = false ->
  strptime ss = Some s -> strptime es = Some e -> s <= e ->
  exists msg,
    scrape w ss es csv out fmt b summary = ([], Err (ValueError msg)).
Proof.
  intros Hf Hn Hs He Hle. unfold scrape, parse_date. rewrite Hf, Hs, He.
  assert (Hb : (s >? e) = false) by (rewrite Z.gtb_ltb; apply Z.ltb_ge; lia).
  fold (normalized_output fmt out).
  destruct (normalized_output_nameless fmt out Hf Hn) as [msg ->].
  unfold catch_ValueError, catch, bind, lift, ret, raise, emit. rewrite Hb.
  exists msg. reflexivity.
Qed.

Lemma scrape_nameless_example :
  scrape scenario_world "2024-01-01" "2024-01-03" None
    {| stem := "."; suffix := "" |} "csv" false true =
  ([], Err (ValueError "PosixPath('.') has an empty name")).
Proof. reflexivity. Qed.

Lemma process_data_events w ss es csv b ev :
  In ev (fst (process_data w ss es csv b)) ->
  match ev with
  | Print _ | HttpGet _ | ReadCsv _ => True
  | _ => False
  end.
Proof.
  destruct (process_data_trace w ss es csv b)
    as [[H _]|[[p [_ [_ H]]]|[[p [rs [_ [_ [_ H]]]]]|[p [e [_ [_ [_ H]]]]]]]];
    rewrite H; simpl; intuition (subst; exact I).
Qed.

Lemma process_data_no_write w ss es csv b :
  filter is_write (fst (process_data w ss es csv b)) = [].
Proof.
  apply filter_none. intros ev Hev. apply process_data_events in Hev.
  destruct ev; try reflexivity; destruct Hev.
Qed.

Lemma prints_no_write pre :
  forallb is_print pre = true -> filter is_write pre = [].
Proof.
  intros H. apply filter_none. intros ev Hev.
  rewrite forallb_forall in H. specialize (H ev Hev).
  destruct ev; try reflexivity; discriminate H.
Qed.

Lemma is_write_write_event fmt p df : is_write (write_event fmt p df) = true.
Proof. unfold write_event. destruct (String.eqb _ _); reflexivity. Qed.



(** [scrape] writes at most once: the frame that [process_data] returned,
    in the requested format, to the output path with its suffix replaced
    by that of the format. *)
Theorem scrape_writes_once w ss es csv out fmt b summary :
  filter is_write (fst (scrape w ss es csv out fmt b summary)) = [] \/
  exists df,
    snd (process_data w ss es csv b) = Ok df /\
    filter is_write (fst (scrape w ss es csv out fmt b summary)) =
    [write_event fmt {| stem := stem out; suffix := "." ++ lower fmt |} df].
Proof.
  destruct (validation_cases ss es fmt) as [[Hf [s [e [Hs [He Hle]]]]]|Hbad].
  - destruct (has_name out) eqn:Hn.
    2:{ left. destruct (scrape_nameless w ss es csv out fmt b summary s e
                          Hf Hn Hs He Hle) as [msg H].
        rewrite H. reflexivity. }
    destruct (process_data w ss es csv b) as [t r] eqn:Hpd.
    destruct (scrape_valid_run w ss es csv out fmt b summary s e t r
                Hf Hn Hs He Hle Hpd) as [pre [Hpre H]].
    pose proof (process_data_no_write w ss es csv b) as Ht.
    rewrite Hpd in Ht. simpl in Ht.
    apply prints_no_write in Hpre.
    destruct r as [df|e0].
    + right. exists df. split; [reflexivity|].
      destruct (write_file w _) as [u|e1].
      * destruct H as [saved [done H]]. rewrite H. cbn [fst].
        rewrite !filter_app, Hpre, Ht. cbn [filter app is_write].
        rewrite is_write_write_event. destruct summary; reflexivity.
      * rewrite H. cbn [fst]. rewrite !filter_app, Hpre, Ht.
        cbn [filter app is_write error_line].
        now rewrite is_write_write_event.
    + left. rewrite H. cbn [fst]. rewrite !filter_app, Hpre, Ht. reflexivity.
  - left. destruct (scrape_rejected w ss es csv out fmt b summary Hbad)
      as [msg H]. rewrite H. reflexivity.
Qed.



Lemma filled_keys_calendar b ex api s e :
  NoDup (non_null (map fst ex)) -> NoDup (map fst api) ->
  get_column 0 (filled_rows b (joined_rows ex api s e)) =
  map Some (date_range s e).
Proof.
  intros Hex Hapi. rewrite filled_rows_keys, joined_rows_eq.
  apply single_rows_keys. now apply combined_rows_unique.
Qed.

(** A run of [scrape] that returns has written, successfully, a frame whose
    [Date] column is the calendar from the start date to the end date (for
    inputs with unique dates): one row per day, in order. *)
Theorem successful_scrape_calendar w ss es csv out fmt b summary :
  snd (scrape w ss es csv out fmt b summary) = Ok tt ->
  NoDup (non_null (map fst (existing_rows w csv))) ->
  NoDup (map fst (fetched_rows w ss)) ->
  exists s e df,
    strptime ss = Some s /\ strptime es = Some e /\ s <= e /\
    In (write_event fmt {| stem := stem out; suffix := "." ++ lower fmt |} df)
       (fst (scrape w ss es csv out fmt b summary)) /\
    write_file w {| stem := stem out; suffix := "." ++ lower fmt |} = Ok tt /\
    column "Date" df = Some (map Some (date_range s e)) /\
    height df = e - s + 1.
Proof.
  intros Hok Hex Hapi.
  destruct (validation_cases ss es fmt) as [[Hf [s [e [Hs [He Hle]]]]]|Hbad].
  - destruct (has_name out) eqn:Hn.
    2:{ destruct (scrape_nameless w ss es csv out fmt b summary s e
                    Hf Hn Hs He Hle) as [msg H].
        rewrite H in Hok. discriminate Hok. }
    destruct (process_data w ss es csv b) as [t r] eqn:Hpd.
    destruct (scrape_valid_run w ss es csv out fmt b summary s e t r
                Hf Hn Hs He Hle Hpd) as [pre [_ H]].
    destruct r as [df|e0]; [|rewrite H in Hok; discriminate Hok].
    destruct (write_file w _) as [[]|e1] eqn:Hw;
      [|rewrite H in Hok; discriminate Hok].
    destruct H as [saved [done H]].
    exists s, e, df. repeat split; try assumption.
    + rewrite H. cbn [fst]. apply in_or_app. right. apply in_or_app. right.
      now left.
    + apply process_data_frame in Hpd.
      destruct Hpd as [s' [e' [Hs' [He' [_ ->]]]]].
      rewrite Hs in Hs'. rewrite He in He'. inversion Hs'. inversion He'.
      subst s' e'. rewrite column_result_Date. f_equal.
      now apply filled_keys_calendar.
    + apply process_data_frame in Hpd.
      destruct Hpd as [s' [e' [Hs' [He' [_ ->]]]]].
      rewrite Hs in Hs'. rewrite He in He'. inversion Hs'. inversion He'.
      subst s' e'. unfold height. cbn [rows].
      rewrite <- (length_map (cell_at 0)).
      change (map (cell_at 0)) with (get_column 0).
      rewrite filled_keys_calendar by assumption.
      rewrite length_map. now apply date_range_length.
  - destruct (scrape_rejected w ss es csv out fmt b summary Hbad) as [msg H].
    rewrite H in Hok. discriminate Hok.
Qed.

Lemma successful_scrape_calendar_witness :
  exists s e df,
    strptime "2024-01-01" = Some s /\ strptime "2024-01-03" = Some e /\
    s <= e /\
    In (write_event "CSV" {| stem := "out"; suffix := "." ++ lower "CSV" |} df)
       (fst (scrape scenario_world "2024-01-01" "2024-01-03" None
               {| stem := "out"; suffix := ".txt" |} "CSV" false true)) /\
    write_file scenario_world
      {| stem := "out"; suffix := "." ++ lower "CSV" |} = Ok tt /\
    column "Date" df = Some (map Some (date_range s e)) /\
    height df = e - s + 1.
Proof.
  apply (successful_scrape_calendar scenario_world "2024-01-01" "2024-01-03"
           None {| stem := "out"; suffix := ".txt" |} "CSV" false true).
  - reflexivity.
  - simpl. constructor.
  - simpl. constructor; [simpl; intros [H|[]]; discriminate H|].
    constructor; [intros []|constructor].
Defined.

Lemma no_summary_in_prints pre d :
  forallb is_print pre = true -> ~ In (PrintSummary d) pre.
Proof.
  intros H Hin. rewrite forallb_forall in H. specialize (H _ Hin).
  discriminate H.
Qed.

(** The summary is displayed exactly when it is requested and the run gets
    past the write; it is the summary of the frame that [process_data]
    returned. *)
Theorem summary_shown_iff w ss es csv out fmt b summary d :
  In (PrintSummary d) (fst (scrape w ss es csv out fmt b summary)) <->
  summary = true /\
  snd (scrape w ss es csv out fmt b summary) = Ok tt /\
  snd (process_data w ss es csv b) = Ok d.
Proof.
  destruct (validation_cases ss es fmt) as [[Hf [s [e [Hs [He Hle]]]]]|Hbad].
  - destruct (has_name out) eqn:Hn.
    2:{ destruct (scrape_nameless w ss es csv out fmt b summary s e
                    Hf Hn Hs He Hle) as [msg H].
        rewrite H. cbn [fst snd]. split; [intros []|].
        intros [_ [Hok _]]. discriminate Hok. }
    destruct (process_data w ss es csv b) as [t r] eqn:Hpd.
    destruct (scrape_valid_run w ss es csv out fmt b summary s e t r
                Hf Hn Hs He Hle Hpd) as [pre [Hpre H]].
    assert (Ht : ~ In (PrintSummary d) t).
    { intros Hin.
      assert (Hin' : In (PrintSummary d) (fst (process_data w ss es csv b)))
        by (rewrite Hpd; exact Hin).
      apply process_data_events in Hin'. exact Hin'. }
    pose proof (no_summary_in_prints pre d Hpre) as Hp.
    destruct r as [df|e0].
    + destruct (write_file w _) as [[]|e1].
      * destruct H as [saved [done H]]. rewrite H. cbn [fst snd]. split.
        -- intros Hin. apply in_app_or in Hin. destruct Hin as [Hin|Hin];
             [contradiction|].
           apply in_app_or in Hin. destruct Hin as [Hin|Hin]; [contradiction|].
           unfold write_event in Hin.
           destruct summary;
             destruct (String.eqb (lower fmt) "parquet"); simpl in Hin;
             repeat (destruct Hin as [Hin|Hin]; try discriminate Hin);
             try contradiction; inversion Hin; auto.
        -- intros [-> [_ Hd]]. inversion Hd; subst d.
           apply in_or_app. right. apply in_or_app. right.
           simpl. right. right. right. now left.
      * rewrite H. cbn [fst snd]. split.
        -- intros Hin. apply in_app_or in Hin. destruct Hin as [Hin|Hin];
             [contradiction|].
           apply in_app_or in Hin. destruct Hin as [Hin|Hin]; [contradiction|].
           unfold write_event, error_line in Hin.
           destruct (String.eqb (lower fmt) "parquet"); simpl in Hin;
             repeat (destruct Hin as [Hin|Hin]; try discriminate Hin);
             contradiction.
        -- intros [_ [Hd _]]. discriminate Hd.
    + rewrite H. cbn [fst snd]. split.
      * intros Hin. apply in_app_or in Hin. destruct Hin as [Hin|Hin];
          [contradiction|].
        apply in_app_or in Hin. destruct Hin as [Hin|Hin]; [contradiction|].
        destruct Hin as [Hin|[]]. discriminate Hin.
      * intros [_ [Hd _]]. discriminate Hd.
  - destruct (scrape_rejected w ss es csv out fmt b summary Hbad) as [msg H].
    rewrite H. cbn [fst snd]. split.
    + intros [Hin|[]]. discriminate Hin.
    + intros [_ [Hd _]]. discriminate Hd.
Qed.

(** ** The shape of the returned frame *)

Lemma replace_nth_length {A} k (a : A) l :
  List.length (replace_nth k a l) = List.length l.
Proof.
  revert k. induction l as [|h l IH]; intros [|k]; simpl; auto.
Qed.

Lemma set_column_row_In k col rs r :
  In r (set_column k col rs) ->
  exists r0, In r0 rs /\ List.length r = List.length r0.
Proof.
  revert col. induction rs as [|r1 rs IH]; intros [|c col] Hin;
    try (now exists r).
  simpl in Hin. destruct Hin as [<-|Hin].
  - exists r1. split; [now left|apply replace_nth_length].
  - destruct (IH col Hin) as [r0 [H0 H1]]. exists r0. split; [now right|exact H1].
Qed.

Lemma remove_nth_0_length {A} (l : list A) :
  l <> [] -> S (List.length (remove_nth 0 l)) = List.length l.
Proof. destruct l; [congruence|reflexivity]. Qed.

Lemma combined_rows_length ex api rr :
  In rr (combined_rows ex api) -> List.length rr = S (combined_width ex).
Proof.
  assert (Hapi : forall r, In r (api_rows api) -> List.length r = 2%nat).
  { intros r Hr. unfold api_rows in Hr. apply in_map_iff in Hr.
    destruct Hr as [o [<- _]]. reflexivity. }
  unfold combined_rows. destruct ex as [|x ex]; [apply Hapi|].
  set (E := x :: ex). intros Hrr. apply in_app_or in Hrr.
  destruct Hrr as [Hrr|Hrr].
  - unfold left_join_rows in Hrr. apply in_flat_map in Hrr.
    destruct Hrr as [lr [Hlr Hrr]].
    unfold file_rows in Hlr. apply in_map_iff in Hlr.
    destruct Hlr as [[c v] [<- _]]. cbn [fst snd] in Hrr.
    destruct (matches 0 0 [c; v] (api_rows api)) as [|m ms] eqn:Em.
    + destruct Hrr as [<-|[]]. reflexivity.
    + apply in_map_iff in Hrr. destruct Hrr as [r' [<- Hr']].
      rewrite <- Em in Hr'. unfold matches in Hr'. apply filter_In in Hr'.
      destruct Hr' as [Hr' _]. apply Hapi in Hr'.
      destruct r' as [|a [|a' [|? ?]]]; try discriminate Hr'. reflexivity.
  - unfold unmatched_right_rows in Hrr. apply in_map_iff in Hrr.
    destruct Hrr as [r' [<- Hr']]. apply filter_In in Hr'.
    destruct Hr' as [Hr' _]. apply Hapi in Hr'.
    destruct r' as [|a [|a' [|? ?]]]; try discriminate Hr'. reflexivity.
Qed.

Lemma joined_rows_length ex api s e r :
  In r (joined_rows ex api s e) ->
  List.length r = S (combined_width ex) /\ (2 <= List.length r)%nat.
Proof.
  intros Hr.
  assert (Hlen : List.length r = S (combined_width ex)).
  { apply joined_rows_In in Hr. destruct Hr as [d [_ Hr]].
    unfold day_rows in Hr.
    destruct (matches 0 0 [Some d] (combined_rows ex api)) as [|m ms] eqn:Em.
    - destruct Hr as [<-|[]]. simpl. now rewrite repeat_length.
    - apply in_map_iff in Hr. destruct Hr as [rr [<- Hrr]].
      rewrite <- Em in Hrr. unfold matches in Hrr. apply filter_In in Hrr.
      destruct Hrr as [Hrr _]. apply combined_rows_length in Hrr.
      destruct rr as [|a rr]; [discriminate Hrr|].
      unfold remove_nth. cbn [List.length app firstn skipn] in *. lia. }
  split; [exact Hlen|]. rewrite Hlen. destruct ex; simpl; lia.
Qed.

(** The frame that [process_data] returns has the columns [Date] and
    [Fear Greed], and a third column [Fear Greed_right] exactly when the file
    had rows; every row has one cell per column. *)
Theorem returned_frame_schema w ss es csv b t df :
  process_data w ss es csv b = (t, Ok df) ->
  columns df =
    match existing_rows w csv with
    | [] => ["Date"; "Fear Greed"]%string
    | _ => ["Date"; "Fear Greed"; "Fear Greed_right"]%string
    end /\
  forall r, In r (rows df) -> List.length r = List.length (columns df).
Proof.
  intros H. apply process_data_frame in H.
  destruct H as [s [e [_ [_ [_ ->]]]]]. cbn [columns rows].
  split; [reflexivity|].
  intros r Hr. unfold filled_rows in Hr. apply set_column_row_In in Hr.
  destruct Hr as [r0 [Hr0 ->]]. apply joined_rows_length in Hr0.
  destruct Hr0 as [-> _]. destruct (existing_rows w csv); reflexivity.
Qed.

Lemma returned_frame_schema_witness :
  columns scenario_zero_filled =
    match existing_rows scenario_world (Some old_csv) with
    | [] => ["Date"; "Fear Greed"]%string
    | _ => ["Date"; "Fear Greed"; "Fear Greed_right"]%string
    end /\
  forall r, In r (rows scenario_zero_filled) ->
            List.length r = List.length (columns scenario_zero_filled).
Proof.
  apply (returned_frame_schema scenario_world "2024-01-01" "2024-01-03"
           (Some old_csv) false
           [ReadCsv "fng_data.csv"; HttpGet scenario_url]).
  reflexivity.
Defined.

(** Under zero-fill no [Fear Greed] cell of the returned frame is null. *)
Theorem zero_fill_leaves_no_null w ss es csv t df r :
  process_data w ss es csv false = (t, Ok df) ->
  In r (rows df) -> exists v, cell_of df "Fear Greed" r = Some v.
Proof.
  intros H Hr. apply process_data_frame in H.
  destruct H as [s [e [_ [_ [_ ->]]]]]. cbn [rows] in Hr.
  unfold cell_of. cbn [columns]. rewrite result_columns_Fear_Greed.
  rewrite filled_rows_zero in Hr. apply in_map_iff in Hr.
  destruct Hr as [r0 [<- Hr0]]. apply joined_rows_length in Hr0.
  destruct Hr0 as [_ Hr0].
  destruct r0 as [|a [|c r0]]; simpl in Hr0; try lia.
  simpl. destruct c as [u|]; eexists; reflexivity.
Qed.

Lemma zero_fill_leaves_no_null_witness :
  exists v,
    cell_of scenario_zero_filled "Fear Greed" [Some 738888; Some 0; Some 30]
    = Some v.
Proof.
  apply (zero_fill_leaves_no_null scenario_world "2024-01-01" "2024-01-03"
           (Some old_csv) [ReadCsv "fng_data.csv"; HttpGet scenario_url]
           scenario_zero_filled).
  - reflexivity.
  - simpl. auto.
Defined.

Lemma fill_null_backward_shape col :
  exists vs n, fill_null_backward col = map Some vs ++ repeat None n.
Proof.
  induction col as [|c col [vs [n IH]]].
  - exists [], 0%nat. reflexivity.
  - simpl. rewrite IH. destruct c as [u|].
    + exists (u :: vs), n. reflexivity.
    + destruct vs as [|v vs].
      * exists [], (S n). destruct n; reflexivity.
      * exists (v :: v :: vs), n. reflexivity.
Qed.

Lemma fill_null_backward_length col :
  List.length (fill_null_backward col) = List.length col.
Proof.
  induction col as [|c col IH]; simpl; [reflexivity|].
  destruct c; simpl; now rewrite IH.
Qed.

Lemma get_set_column_1 col rs :
  List.length col = List.length rs ->
  (forall r, In r rs -> (2 <= List.length r)%nat) ->
  get_column 1 (set_column 1 col rs) = col.
Proof.
  revert col. induction rs as [|r rs IH]; intros [|c col] Hlen Hrows;
    try discriminate Hlen; [reflexivity|].
  simpl. f_equal.
  - specialize (Hrows r (or_introl eq_refl)).
    destruct r as [|a [|a' r]]; simpl in Hrows; try lia. reflexivity.
  - apply IH; [now inversion Hlen|]. intros r' Hr'. apply Hrows. now right.
Qed.

(** Under backward fill the nulls left in [Fear Greed] form one run at the
    end of the frame: after the first null every later value is null. *)
Theorem backfill_nulls_are_trailing w ss es csv t df :
  process_data w ss es csv true = (t, Ok df) ->
  exists vs n,
    column "Fear Greed" df = Some (map Some vs ++ repeat None n).
Proof.
  intros H. apply process_data_frame in H.
  destruct H as [s [e [_ [_ [_ ->]]]]].
  unfold column. cbn [columns rows]. rewrite result_columns_Fear_Greed.
  unfold filled_rows, fill_strategy.
  rewrite get_set_column_1.
  - destruct (fill_null_backward_shape
                (get_column 1 (joined_rows (existing_rows w csv)
                                           (fetched_rows w ss) s e)))
      as [vs [n E]].
    exists vs, n. now rewrite E.
  - rewrite fill_null_backward_length. unfold get_column. apply length_map.
  - intros r Hr. apply joined_rows_length in Hr. lia.
Qed.

Lemma backfill_nulls_are_trailing_witness :
  exists vs n,
    column "Fear Greed" scenario_backfilled =
    Some (map Some vs ++ repeat None n).
Proof.
  apply (backfill_nulls_are_trailing scenario_world "2024-01-01" "2024-01-03"
           (Some old_csv) [ReadCsv "fng_data.csv"; HttpGet scenario_url]).
  reflexivity.
Defined.

(** ** Observed values on the path without file rows *)

Lemma map_as_flat_map {A B} (f : A -> B) (l : list A) :
  map f l = flat_map (fun a => [f a]) l.
Proof.
  induction l as [|a l IH]; simpl; [reflexivity|]. now rewrite IH.
Qed.

Lemma joined_rows_api api s e :
  NoDup (map fst api) ->
  joined_rows [] api s e =
  map (fun d => [Some d; observed api d]) (date_range s e).
Proof.
  intros Hnd. rewrite joined_rows_eq. cbn [combined_width combined_rows].
  induction (date_range s e) as [|a ds IH]; [reflexivity|].
  cbn [flat_map map]. rewrite day_rows_api by exact Hnd. now rewrite IH.
Qed.

(** When the file contributes no row and every fetched value fits the 64
    bits of a [pl.Int64] cell, a fetched observation inside the range
    comes out unchanged under either fill policy. *)
Theorem fetched_value_kept_without_file w ss es csv b t df s e d v :
  process_data w ss es csv b = (t, Ok df) ->
  existing_rows w csv = [] ->
  strptime ss = Some s -> strptime es = Some e -> s <= d <= e ->
  NoDup (map fst (fetched_rows w ss)) ->
  Forall (fun o => in_int64 (snd o) = true) (fetched_rows w ss) ->
  In (d, v) (fetched_rows w ss) ->
  values_on df d = [Some v].
Proof.
  intros H Hex Hs He Hd Hnd _ Hin. apply process_data_frame in H.
  destruct H as [s' [e' [Hs' [He' [_ ->]]]]].
  rewrite Hs in Hs'. rewrite He in He'. inversion Hs'. inversion He'. subst s' e'.
  rewrite Hex. set (api := fetched_rows w ss) in *.
  rewrite values_on_result, (joined_rows_api api s e Hnd).
  pose proof (observed_Some api d v Hnd Hin) as Hobs.
  destruct b.
  - unfold filled_rows, fill_strategy, get_column. rewrite map_map.
    cbn [cell_at nth]. rewrite set_column_backfilled.
    rewrite (date_range_split s e d Hd).
    rewrite backfilled_days_at
      by (rewrite <- (date_range_split s e d Hd); apply date_range_NoDup).
    cbn [map first_some]. now rewrite Hobs.
  - rewrite filled_rows_zero, map_map.
    match goal with
    | |- context [filter ?p (map ?g ?l)] => rewrite (map_as_flat_map g l)
    end.
    rewrite (filter_flat_map_day _ _ _ d).
    + cbn [map cell_at nth replace_nth]. now rewrite Hobs.
    + apply date_range_NoDup.
    + now apply date_range_In.
    + intros d' a [<-|[]]. reflexivity.
Qed.

Lemma fetched_value_kept_without_file_witness :
  values_on fetched_only_backfilled 738888 = [Some 30].
Proof.
  apply (fetched_value_kept_without_file scenario_world
           "2024-01-01" "2024-01-03" None true [HttpGet scenario_url]
           fetched_only_backfilled 738886 738888 738888 30).
  - reflexivity.
  - reflexivity.
  - reflexivity.
  - reflexivity.
  - lia.
  - simpl. constructor; [simpl; intros [H|[]]; discriminate H|].
    constructor; [intros []|constructor].
  - simpl. repeat constructor.
  - simpl. auto.
Defined.


Lemma existing_value_wins_witness :
  values_on scenario_zero_filled 738886 <> [] /\
  forall c, In c (values_on scenario_zero_filled 738886) -> c = Some 10.
Proof.
  apply (existing_value_wins scenario_world "2024-01-01" "2024-01-03"
           (Some old_csv) false
           [ReadCsv "fng_data.csv"; HttpGet scenario_url]
           scenario_zero_filled 738886 738888 738886 10).
  - reflexivity.
  - reflexivity.
  - reflexivity.
  - lia.
  - simpl. constructor; [intros []|constructor].
  - simpl. auto.
Defined.

(** ** The default end date *)

Lemma digit_char_digit n :
  0 <= n <= 9 -> is_digit (digit_char n) = true /\ digit_val (digit_char n) = n.
Proof.
  intros H. rewrite <- (Z2Nat.id n) by lia.
  assert (Hk : (Z.to_nat n < 10)%nat) by lia.
  destruct (Z.to_nat n) as [|k]; [split; reflexivity|].
  do 9 (destruct k as [|k]; [split; reflexivity|]). lia.
Qed.

Lemma strptime_padded a b c d m1 m2 d1 d2 :
  is_digit a = true -> is_digit b = true -> is_digit c = true ->
  is_digit d = true -> is_digit m1 = true -> is_digit m2 = true ->
  is_digit d1 = true -> is_digit d2 = true ->
  1 <= digit_val m1 * 10 + digit_val m2 <= 12 ->
  1 <= digit_val d1 * 10 + digit_val d2 <= 31 ->
  strptime
    (String a (String b (String c (String d (String "-"
    (String m1 (String m2 (String "-"
    (String d1 (String d2 EmptyString)))))))))) =
  date (((digit_val a * 10 + digit_val b) * 10 + digit_val c) * 10 + digit_val d)
       (digit_val m1 * 10 + digit_val m2)
       (digit_val d1 * 10 + digit_val d2).
Proof.
  intros Ha Hb Hc Hd Hm1 Hm2 Hd1 Hd2 Hm Hday.
  unfold strptime, parse_year. rewrite Ha, Hb, Hc, Hd. cbn [andb].
  unfold parse_month. rewrite Hm1, Hm2. cbn [andb].
  destruct (Z.leb_spec 1 (digit_val m1 * 10 + digit_val m2)); [|lia].
  destruct (Z.leb_spec (digit_val m1 * 10 + digit_val m2) 12); [|lia].
  cbn [andb]. unfold parse_day. rewrite Hd1, Hd2. cbn [andb].
  destruct (Z.leb_spec 1 (digit_val d1 * 10 + digit_val d2)); [|lia].
  destruct (Z.leb_spec (digit_val d1 * 10 + digit_val d2) 31); [|lia].
  reflexivity.
Qed.

Lemma date_fields y m d o :
  date y m d = Some o -> 1 <= m <= 12 /\ 1 <= d <= 31.
Proof.
  unfold date.
  destruct (MINYEAR <=? y); [|discriminate].
  destruct (y <=? MAXYEAR); [|discriminate].
  destruct (Z.leb_spec 1 m); [|discriminate].
  destruct (Z.leb_spec m 12); [|discriminate].
  destruct (Z.leb_spec 1 d); [|discriminate].
  destruct (Z.leb_spec d (_days_in_month y m)) as [Hd|]; [|discriminate].
  intros _. split; [lia|]. split; [assumption|].
  assert (H31 : _days_in_month y m <= 31).
  { unfold _days_in_month. destruct ((m =? 2) && _is_leap y); [lia|].
    generalize (Z.to_nat m). intros k.
    do 13 (destruct k as [|k]; [simpl; lia|]). destruct k; simpl; lia. }
  lia.
Qed.

(** The default of [--end-date], and what an empty value is replaced by,
    is today printed as [%Y-%m-%d]; validation parses it back to today. *)
Theorem default_end_date_parses y m d o :
  1000 <= y <= 9999 -> date y m d = Some o ->
  strptime (strftime y m d) = Some o /\
  strptime (end_date_callback (strftime y m d) EmptyString) = Some o.
Proof.
  intros Hy Hdate.
  assert (Hparse : strptime (strftime y m d) = Some o).
  { destruct (date_fields y m d o Hdate) as [Hm Hd].
    destruct (digit_char_digit (y / 1000)) as [A1 A2];
      [Z.to_euclidean_division_equations; lia|].
    destruct (digit_char_digit (y / 100 mod 10)) as [B1 B2];
      [Z.to_euclidean_division_equations; lia|].
    destruct (digit_char_digit (y / 10 mod 10)) as [C1 C2];
      [Z.to_euclidean_division_equations; lia|].
    destruct (digit_char_digit (y mod 10)) as [D1 D2];
      [Z.to_euclidean_division_equations; lia|].
    destruct (digit_char_digit (m / 10)) as [E1 E2];
      [Z.to_euclidean_division_equations; lia|].
    destruct (digit_char_digit (m mod 10)) as [F1 F2];
      [Z.to_euclidean_division_equations; lia|].
    destruct (digit_char_digit (d / 10)) as [G1 G2];
      [Z.to_euclidean_division_equations; lia|].
    destruct (digit_char_digit (d mod 10)) as [H1 H2];
      [Z.to_euclidean_division_equations; lia|].
    assert (Hmm : m / 10 * 10 + m mod 10 = m)
      by (Z.to_euclidean_division_equations; lia).
    assert (Hdd : d / 10 * 10 + d mod 10 = d)
      by (Z.to_euclidean_division_equations; lia).
    assert (Hyy : ((y / 1000 * 10 + y / 100 mod 10) * 10 + y / 10 mod 10) * 10
                  + y mod 10 = y)
      by (Z.to_euclidean_division_equations; lia).
    unfold strftime. rewrite strptime_padded; try assumption.
    - rewrite A2, B2, C2, D2, E2, F2, G2, H2, Hyy, Hmm, Hdd. exact Hdate.
    - rewrite E2, F2, Hmm. exact Hm.
    - rewrite G2, H2, Hdd. exact Hd. }
  split; [exact Hparse|]. exact Hparse.
Qed.

Lemma default_end_date_parses_witness :
  strptime (strftime 2026 11 3) = Some 739923 /\
  strptime (end_date_callback (strftime 2026 11 3) EmptyString) = Some 739923.
Proof.
  apply default_end_date_parses.
  - lia.
  - reflexivity.
Defined.

(** ** The summary of a zero-filled frame *)

Lemma series_min_None col :
  series_min col = None -> forall v, ~ In (Some v) col.
Proof.
  induction col as [|c col IH]; simpl; intros H v Hin; [exact Hin|].
  destruct c as [u|].
  - destruct (series_min col); discriminate H.
  - destruct Hin as [Hin|Hin]; [discriminate Hin|]. exact (IH H v Hin).
Qed.

Lemma series_min_Some col m :
  series_min col = Some m ->
  In (Some m) col /\ forall v, In (Some v) col -> m <= v.
Proof.
  revert m. induction col as [|c col IH]; simpl; intros m H; [discriminate H|].
  destruct c as [u|].
  - destruct (series_min col) as [m'|] eqn:E.
    + inversion H; subst m. destruct (IH m' eq_refl) as [Hin Hle]. split.
      * destruct (Z.min_spec u m') as [[_ ->]|[_ ->]]; auto.
      * intros v [Hv|Hv]; [inversion Hv; lia|].
        specialize (Hle v Hv). lia.
    + inversion H; subst m. split; [now left|].
      intros v [Hv|Hv]; [inversion Hv; lia|].
      exfalso. exact (series_min_None col E v Hv).
  - destruct (IH m H) as [Hin Hle]. split; [now right|].
    intros v [Hv|Hv]; [discriminate Hv|]. now apply Hle.
Qed.

Lemma gap_zero_in_column ex api s e d :
  ~ In (Some d) (map fst ex) -> ~ In d (map fst api) -> s <= d <= e ->
  In (Some 0) (get_column 1 (filled_rows false (joined_rows ex api s e))).
Proof.
  intros Hex Hapi Hd. rewrite filled_rows_zero. unfold get_column.
  rewrite map_map. apply in_map_iff.
  exists ([Some d] ++ repeat None (combined_width ex)). split.
  - destruct ex; reflexivity.
  - apply joined_rows_In. exists d. split; [exact Hd|].
    rewrite day_rows_absent by assumption. now left.
Qed.

(** In the summary of a zero-filled frame, a day of the range that neither
    input covers is counted under "Missing/Zero Values", and when no score
    is negative the "Min F&G" cell reads N/A, not 0. *)
Theorem summary_of_zero_filled_gap w ss es csv t df s e d col :
  process_data w ss es csv false = (t, Ok df) ->
  strptime ss = Some s -> strptime es = Some e -> s <= d <= e ->
  ~ In (Some d) (map fst (existing_rows w csv)) ->
  ~ In d (map fst (fetched_rows w ss)) ->
  column "Fear Greed" df = Some col ->
  1 <= missing_count col /\
  ((forall v, In (Some v) col -> 0 <= v) -> min_cell col = "N/A"%string).
Proof.
  intros H Hs He Hd Hex Hapi Hcol. apply process_data_frame in H.
  destruct H as [s' [e' [Hs' [He' [_ ->]]]]].
  rewrite Hs in Hs'. rewrite He in He'. inversion Hs'. inversion He'. subst s' e'.
  unfold column in Hcol. cbn [columns rows] in Hcol.
  rewrite result_columns_Fear_Greed in Hcol. inversion Hcol; subst col.
  pose proof (gap_zero_in_column _ _ s e d Hex Hapi Hd) as Hzero.
  set (col := get_column 1 _) in *. split.
  - unfold missing_count.
    assert (Hf : In (Some 0) (filter (fun c => key_match c (Some 0)) col))
      by (apply filter_In; split; [exact Hzero|reflexivity]).
    destruct (filter _ col); [destruct Hf|]. simpl List.length. lia.
  - intros Hpos. unfold min_cell.
    destruct (series_min col) as [m|] eqn:E; [|reflexivity].
    apply series_min_Some in E. destruct E as [Hin Hle].
    specialize (Hle 0 Hzero). specialize (Hpos m Hin).
    assert (m = 0) by lia. subst m. reflexivity.
Qed.

Lemma summary_of_zero_filled_gap_witness :
  1 <= missing_count [Some 10; Some 0; Some 0] /\
  ((forall v, In (Some v) [Some 10; Some 0; Some 0] -> 0 <= v) ->
   min_cell [Some 10; Some 0; Some 0] = "N/A"%string).
Proof.
  apply (summary_of_zero_filled_gap scenario_world "2024-01-01" "2024-01-03"
           (Some old_csv) [ReadCsv "fng_data.csv"; HttpGet scenario_url]
           scenario_zero_filled 738886 738888 738887).
  - reflexivity.
  - reflexivity.
  - reflexivity.
  - lia.
  - simpl. intros [H|[]]. discriminate H.
  - simpl. intros [H|[H|[]]]; discriminate H.
  - reflexivity.
Defined.

(** ** Several observations for one day *)

Lemma filter_map_length {A B} (q : B -> bool) (g : A -> B) (l : list A) :
  List.length (filter (fun a => q (g a)) l) =
  List.length (filter q (map g l)).
Proof.
  induction l as [|a l IH]; simpl; [reflexivity|].
  destruct (q (g a)); simpl; now rewrite IH.
Qed.

Lemma rows_on_day b ex api s e d :
  s <= d <= e ->
  List.length (filter (fun r => key_match (cell_at 0 r) (Some d))
                      (filled_rows b (joined_rows ex api s e))) =
  List.length (day_rows (combined_width ex) (combined_rows ex api) d).
Proof.
  intros Hd.
  rewrite (filter_map_length (fun c => key_match c (Some d)) (cell_at 0)).
  change (map (cell_at 0)) with (get_column 0).
  rewrite filled_rows_keys. unfold get_column.
  rewrite <- (filter_map_length (fun c => key_match c (Some d)) (cell_at 0)).
  rewrite joined_rows_eq, (filter_flat_map_day _ _ _ d); [reflexivity| | |].
  - apply date_range_NoDup.
  - now apply date_range_In.
  - intros d' a Ha. now rewrite (day_rows_key _ _ _ _ Ha).
Qed.

(** Observations are not deduplicated: when the file contributes no row, a
    day of the range has as many rows in the returned frame as the payload
    has entries on that day, and one row when it has none. *)
Theorem rows_per_day_without_file w ss es csv b t df s e d :
  process_data w ss es csv b = (t, Ok df) ->
  existing_rows w csv = [] ->
  strptime ss = Some s -> strptime es = Some e -> s <= d <= e ->
  List.length (values_on df d) =
  Nat.max 1 (count_occ Z.eq_dec (map fst (fetched_rows w ss)) d).
Proof.
  intros H Hex Hs He Hd. apply process_data_frame in H.
  destruct H as [s' [e' [Hs' [He' [_ ->]]]]].
  rewrite Hs in Hs'. rewrite He in He'. inversion Hs'. inversion He'. subst s' e'.
  rewrite Hex. set (api := fetched_rows w ss) in *.
  rewrite values_on_result, length_map, (rows_on_day b [] api s e d Hd).
  cbn [combined_width combined_rows]. unfold day_rows.
  pose proof (matches_length [Some d] d (api_rows api) eq_refl) as Hm.
  rewrite api_rows_keys, non_null_map_Some in Hm. rewrite <- Hm.
  destruct (matches 0 0 [Some d] (api_rows api)) as [|m ms];
    [reflexivity|].
  rewrite length_map. simpl. reflexivity.
Qed.

Lemma rows_per_day_without_file_witness :
  List.length
    (values_on
       {| columns := ["Date"; "Fear Greed"]%string;
          rows := [[Some 738886; Some 20]; [Some 738886; Some 25];
                   [Some 738887; Some 0]] |} 738886) =
  Nat.max 1
    (count_occ Z.eq_dec
       (map fst
          (fetched_rows
             {| utcoffset := utc;
                http_get := fun _ =>
                  Ok (Some (Some
                    [ {| x := JInt 1704067200000; y := JInt 20 |};
                      {| x := JInt 1704110400000; y := JInt 25 |} ]));
                path_exists := fun _ => false;
                read_csv := fun _ => Err (OSError "No such file or directory");
                write_file := fun _ => Ok tt |} "2024-01-01")) 738886).
Proof.
  apply (rows_per_day_without_file _ "2024-01-01" "2024-01-02" None false
           [HttpGet scenario_url] _ 738886 738887 738886).
  - reflexivity.
  - reflexivity.
  - reflexivity.
  - reflexivity.
  - lia.
Defined.
